(** * gddo-server background tasks (background.go)

    A shallow embedding of the scheduler [runBackgroundTasks] and of the three
    task bodies [doCrawl], [readGitHubUpdates] and [checkPackagesToSuppress].

    Every function of background.go talks to collaborators that live outside
    the file (the database, the document crawler, the GitHub feed, the
    suppression scorer, the clock and the logger).  The embedding therefore
    writes each Go function as a program over the collaborator calls it makes,
    in the order in which the source makes them; a program is run against an
    arbitrary environment that answers the calls, and the run yields the list
    of calls made together with their answers, the returned value and the
    final state of the environment. *)

From Stdlib Require Import ZArith String List Bool Lia.
From ExtLib Require Import Structures.Monad.
Import ListNotations.
Import MonadNotation.

Local Open Scope Z_scope.
Local Open Scope list_scope.
Local Open Scope monad_scope.

(** ** Data *)

(** [time.Duration] is an int64 count of nanoseconds.  background.go only
    compares durations with [0] and with each other and divides one by [3],
    so no operation on them can wrap around. *)
Definition Duration := Z.

Definition Nanosecond : Duration := 1.
Definition Second : Duration := 1000000000 * Nanosecond.
Definition Minute : Duration := 60 * Second.
Definition Hour : Duration := 60 * Minute.

(** [time.Time] is an instant; it is counted here in nanoseconds from the
    zero value [time.Time{}].  [t.Add(d)] is [t + d] and [t.After(u)] is
    [u < t]. *)
Definition Time := Z.

Definition zeroTime : Time := 0.
Definition Add (t : Time) (d : Duration) : Time := t + d.
Definition After (t u : Time) : bool := u <? t.

(** A Go [error] value that is not nil; [option error] is a Go [error]. *)
Definition error := string.

(** The fields of [doc.Package] that background.go reads. *)
Record Package := mkPackage {
  ImportPath : string;
  ProjectRoot : string;
  Etag : string
}.

(** The field of [database.Package] that background.go reads. *)
Record DbPackage := mkDbPackage {
  Path : string
}.

(** [gddoexp.GithubAuth]. *)
Record GithubAuth := mkGithubAuth {
  ID : string;
  Secret : string
}.

(** One element of the channel returned by [gddoexp.ShouldSuppressPackages]. *)
Record SuppressResponse := mkSuppressResponse {
  RPackage : DbPackage;
  Suppress : bool;
  Error : option error
}.

(** [url.Values], a map from a key to its list of values, and [Values.Get],
    which returns the first value of a key or the empty string. *)
Definition Values := list (string * list string).

Fixpoint valuesGet (v : Values) (key : string) : string :=
  match v with
  | [] => EmptyString
  | (k, vs) :: rest =>
      if String.eqb k key then
        match vs with
        | [] => EmptyString
        | x :: _ => x
        end
      else valuesGet rest key
  end.

(** A database handle: the package-level variable [db], or a handle that
    [database.New] returned. *)
Inductive Database : Type :=
| PkgDb
| OpenedDb (id : nat).

(** The three functions stored in the [fn] field of the task table. *)
Inductive taskfn : Type :=
| FnReadGitHubUpdates
| FnDoCrawl
| FnCheckPackagesToSuppress.

(** An argument of a logging call: a string, or an error value (which may be
    nil). *)
Inductive logarg : Type :=
| AStr (s : string)
| AErr (e : option error).

(** The command-line flags and package-level variables that background.go
    reads; [maxAge] and [gitHubCredentials] are declared in another file of
    the package. *)
Record Config := mkConfig {
  github_interval : Duration;
  crawl_interval : Duration;
  suppress_packages : Duration;
  maxAge : Duration;
  gitHubCredentials : string
}.

(** ** Collaborator calls *)

Inductive call : Type :=
| DbPopNewCrawl (d : Database)
| CrawlDoc (source importPath : string) (old : option Package)
           (hasSubdirs : bool) (nextCrawl : Time)
| DbAddBadCrawl (d : Database) (importPath : string)
| DbGet (d : Database) (path : string)
| DbSetNextCrawlEtag (d : Database) (projectRoot etag : string) (t : Time)
| DbGetGob (d : Database) (key : string)
| GetGitHubUpdates (last : string)
| DbBumpCrawl (d : Database) (projectRoot : string)
| DbPutGob (d : Database) (key value : string)
| DatabaseNew
| DbAllPackages (d : Database)
| ParseQuery (query : string)
| ShouldSuppressPackages (pkgs : list DbPackage) (d : Database)
                         (auth : option GithubAuth)
| DbPut (d : Database) (pdoc : option Package) (nextCrawl : Time) (hide : bool)
| TimeNow
| TimeSleep (d : Duration)
| LogPrintf (format : string) (args : list logarg)
| LogPrintln (args : list logarg)
| Fn (f : taskfn).

(** What each call returns.  A channel that is ranged over until it is closed
    is the list of the values received from it, in the order received. *)
Definition resp (c : call) : Type :=
  match c with
  | DbPopNewCrawl _ => string * bool * option error
  | CrawlDoc _ _ _ _ _ => option Package * option error
  | DbAddBadCrawl _ _ => option error
  | DbGet _ _ => option Package * list DbPackage * Time * option error
  | DbSetNextCrawlEtag _ _ _ _ => option error
  | DbGetGob _ _ => string * option error
  | GetGitHubUpdates _ => string * list string * option error
  | DbBumpCrawl _ _ => option error
  | DbPutGob _ _ _ => option error
  | DatabaseNew => Database * option error
  | DbAllPackages _ => list DbPackage * option error
  | ParseQuery _ => Values * option error
  | ShouldSuppressPackages _ _ _ => list SuppressResponse
  | DbPut _ _ _ _ => option error
  | TimeNow => Time
  | TimeSleep _ => unit
  | LogPrintf _ _ => unit
  | LogPrintln _ => unit
  | Fn _ => option error
  end.

(** ** Programs *)

Inductive Prog (R : Type) : Type :=
| Ret (r : R)
| Do (c : call) (k : resp c -> Prog R).

Arguments Ret {R} r.
Arguments Do {R} c k.

Fixpoint bindP {A B : Type} (p : Prog A) (f : A -> Prog B) : Prog B :=
  match p with
  | Ret a => f a
  | Do c k => Do c (fun x => bindP (k x) f)
  end.

#[export] Instance Monad_Prog : Monad Prog :=
  {| ret := @Ret; bind := @bindP |}.

(** Perform one call and return its answer. *)
Definition perform (c : call) : Prog (resp c) := Do c Ret.

(** A call made at runtime, with the answer it got. *)
Definition event : Type := { c : call & resp c }.

Definition ev (c : call) (x : resp c) : event := existT resp c x.

Definition calls (tr : list event) : list call := map (@projT1 call resp) tr.

Record Outcome (World R : Type) : Type := mkOutcome {
  trace : list event;
  result : R;
  final : World
}.

Arguments mkOutcome {World R} trace result final.
Arguments trace {World R} o.
Arguments result {World R} o.
Arguments final {World R} o.

(** An environment answers every call and moves to its next state. *)
Definition Env (World : Type) : Type := forall c : call, World -> resp c * World.

Fixpoint exec {World R : Type} (env : Env World) (p : Prog R) (w : World)
  : Outcome World R :=
  match p with
  | Ret r => mkOutcome [] r w
  | Do c k =>
      let a := env c w in
      let o := exec env (k (fst a)) (snd a) in
      mkOutcome (ev c (fst a) :: trace o) (result o) (final o)
  end.

(** The double quote character, for the format strings that contain one. *)
Definition dquote : string := String (Ascii.ascii_of_nat 34) EmptyString.

Definition cat (a b : string) : string := String.append a b.

Arguments cat : simpl never.

(** ** doCrawl *)

Definition doCrawl (cfg : Config) : Prog (option error) :=
  '(importPath, hasSubdirs, err) <- perform (DbPopNewCrawl PkgDb) ;;
  match err with
  | Some e =>
      perform (LogPrintf "db.PopNewCrawl() returned error %v" [AErr (Some e)]) ;;
      ret None
  | None =>
      if negb (String.eqb importPath "") then
        '(pdoc, err) <- perform (CrawlDoc "new" importPath None hasSubdirs zeroTime) ;;
        match pdoc, err with
        | None, None =>
            err <- perform (DbAddBadCrawl PkgDb importPath) ;;
            match err with
            | Some e =>
                perform (LogPrintf "ERROR db.AddBadCrawl(%q): %v"
                                   [AStr importPath; AErr (Some e)]) ;;
                ret None
            | None => ret None
            end
        | _, _ => ret None
        end
      else
        '(pdoc, pkgs, nextCrawl, err) <- perform (DbGet PkgDb "-") ;;
        match err with
        | Some e =>
            perform (LogPrintf (cat "db.Get(" (cat dquote (cat "-" (cat dquote
                                 ") returned error %v"))))
                               [AErr (Some e)]) ;;
            ret None
        | None =>
            match pdoc with
            | None => ret None
            | Some pdoc =>
                now <- perform TimeNow ;;
                if After nextCrawl now then ret None
                else
                  '(_, err) <- perform (CrawlDoc "crawl" (ImportPath pdoc) (Some pdoc)
                                                 (0 <? Z.of_nat (length pkgs)) nextCrawl) ;;
                  match err with
                  | Some _ =>
                      now <- perform TimeNow ;;
                      err <- perform (DbSetNextCrawlEtag PkgDb (ProjectRoot pdoc) (Etag pdoc)
                                        (Add now (Z.quot (maxAge cfg) 3))) ;;
                      match err with
                      | Some e =>
                          perform (LogPrintf "ERROR db.TouchLastCrawl(%q): %v"
                                             [AStr (ImportPath pdoc); AErr (Some e)]) ;;
                          ret None
                      | None => ret None
                      end
                  | None => ret None
                  end
            end
        end
  end.

(** ** readGitHubUpdates *)

Definition key : string := "gitHubUpdates".

(** The body of [for _, name := range names]. *)
Definition bumpCrawl (name : string) : Prog unit :=
  perform (LogPrintf "bump crawl github.com/%s" [AStr name]) ;;
  err <- perform (DbBumpCrawl PkgDb (cat "github.com/" name)) ;;
  match err with
  | Some e => perform (LogPrintln [AStr "ERROR force crawl:"; AErr (Some e)])
  | None => ret tt
  end.

Fixpoint bumpCrawls (names : list string) : Prog unit :=
  match names with
  | [] => ret tt
  | name :: rest => bumpCrawl name ;; bumpCrawls rest
  end.

Definition readGitHubUpdates : Prog (option error) :=
  '(last, err) <- perform (DbGetGob PkgDb key) ;;
  match err with
  | Some e => ret (Some e)
  | None =>
      '(last, names, err) <- perform (GetGitHubUpdates last) ;;
      match err with
      | Some e => ret (Some e)
      | None =>
          bumpCrawls names ;;
          err <- perform (DbPutGob PkgDb key last) ;;
          match err with
          | Some e => ret (Some e)
          | None => ret None
          end
      end
  end.

(** ** checkPackagesToSuppress *)

(** The body of [for response := range ...].  [outerErr] is the function's
    variable [err], which the first logging call of the loop prints. *)
Definition suppressOne (db : Database) (outerErr : option error)
    (response : SuppressResponse) : Prog unit :=
  match Error response with
  | Some _ =>
      perform (LogPrintf "error while checking package “%s”: %s"
                         [AStr (Path (RPackage response)); AErr outerErr])
  | None =>
      if negb (Suppress response) then ret tt
      else
        '(pkg, _, _, err) <- perform (DbGet db (Path (RPackage response))) ;;
        match err with
        | Some e =>
            perform (LogPrintf "error retrieving package “%s”: %s"
                               [AStr (Path (RPackage response)); AErr (Some e)])
        | None =>
            err <- perform (DbPut db pkg zeroTime true) ;;
            match err with
            | Some e =>
                perform (LogPrintf "error updating package “%s”: %s"
                                   [AStr (Path (RPackage response)); AErr (Some e)])
            | None => ret tt
            end
        end
  end.

Fixpoint suppressAll (db : Database) (outerErr : option error)
    (responses : list SuppressResponse) : Prog unit :=
  match responses with
  | [] => ret tt
  | response :: rest =>
      suppressOne db outerErr response ;; suppressAll db outerErr rest
  end.

(** The block guarded by [gitHubCredentials != ""]: it yields the value of
    [auth], or the error with which the function returns from inside it. *)
Definition githubAuth (cfg : Config) : Prog (error + option GithubAuth) :=
  if negb (String.eqb (gitHubCredentials cfg) "") then
    '(values, err) <- perform (ParseQuery (gitHubCredentials cfg)) ;;
    match err with
    | Some e =>
        perform (LogPrintln [AStr "error parsing Github auth:"; AErr (Some e)]) ;;
        ret (inl e)
    | None =>
        ret (inr (Some (mkGithubAuth (valuesGet values "client_id")
                                     (valuesGet values "client_secret"))))
    end
  else ret (inr None).

Definition checkPackagesToSuppress (cfg : Config) : Prog (option error) :=
  '(db, err) <- perform DatabaseNew ;;
  match err with
  | Some e =>
      perform (LogPrintln [AStr "error connecting to database:"; AErr (Some e)]) ;;
      ret (Some e)
  | None =>
      '(pkgs, err) <- perform (DbAllPackages db) ;;
      match err with
      | Some e =>
          perform (LogPrintln [AStr "error retrieving all packages:"; AErr (Some e)]) ;;
          ret (Some e)
      | None =>
          auth <- githubAuth cfg ;;
          match auth with
          | inl e => ret (Some e)
          | inr auth =>
              responses <- perform (ShouldSuppressPackages pkgs db auth) ;;
              suppressAll db err responses ;;
              ret None
          end
      end
  end.

(** ** The task table and runBackgroundTasks *)

Record Task := mkTask {
  name : string;
  fn : taskfn;
  interval : Duration;
  next : Time
}.

Definition backgroundTasks (cfg : Config) : list Task :=
  [ mkTask "GitHub updates" FnReadGitHubUpdates (github_interval cfg) zeroTime;
    mkTask "Crawl" FnDoCrawl (crawl_interval cfg) zeroTime;
    mkTask "Suppress packages" FnCheckPackagesToSuppress (suppress_packages cfg) zeroTime ].

(** The first loop of [runBackgroundTasks], which computes [sleep]. *)
Definition sleepStep (sleep : Duration) (task : Task) : Duration :=
  if (0 <? interval task) && (interval task <? sleep) then interval task else sleep.

Definition sleepPeriod (tasks : list Task) : Duration :=
  fold_left sleepStep tasks Minute.

(** The body of the inner loop: one task on one tick.  The task is a pointer
    in the source, so the assignment to [task.next] is the returned record. *)
Definition runTask (task : Task) : Prog Task :=
  start <- perform TimeNow ;;
  if (0 <? interval task) && After start (next task) then
    err <- perform (Fn (fn task)) ;;
    match err with
    | Some e => perform (LogPrintf "Task %s: %v" [AStr (name task); AErr (Some e)])
    | None => ret tt
    end ;;
    now <- perform TimeNow ;;
    ret (mkTask (name task) (fn task) (interval task) (Add now (interval task)))
  else ret task.

Fixpoint runTasks (tasks : list Task) : Prog (list Task) :=
  match tasks with
  | [] => ret []
  | task :: rest =>
      task' <- runTask task ;;
      rest' <- runTasks rest ;;
      ret (task' :: rest')
  end.

(** The first [ticks] iterations of the endless [for] loop. *)
Fixpoint tickLoop (ticks : nat) (sleep : Duration) (tasks : list Task)
  : Prog (list Task) :=
  match ticks with
  | O => ret tasks
  | S ticks' =>
      tasks' <- runTasks tasks ;;
      perform (TimeSleep sleep) ;;
      tickLoop ticks' sleep tasks'
  end.

(** [runBackgroundTasks] never returns; its deferred logging call runs only
    if the loop is left by a panic.  The program below is the function cut
    after [ticks] iterations of the loop, with the task table it has reached. *)
Definition runBackgroundTasks (cfg : Config) (ticks : nat) : Prog (list Task) :=
  let sleep := sleepPeriod (backgroundTasks cfg) in
  tickLoop ticks sleep (backgroundTasks cfg).

(** The function behind each [fn] field. *)
Definition taskBody (cfg : Config) (f : taskfn) : Prog (option error) :=
  match f with
  | FnReadGitHubUpdates => readGitHubUpdates
  | FnDoCrawl => doCrawl cfg
  | FnCheckPackagesToSuppress => checkPackagesToSuppress cfg
  end.

(** An environment in which a call of a task function runs that function's
    body against the same collaborators. *)
Definition withTasks {World : Type} (cfg : Config) (env : Env World) : Env World :=
  fun c =>
    match c as c0 return World -> resp c0 * World with
    | Fn f => fun w =>
        let o := exec env (taskBody cfg f) w in (result o, final o)
    | c0 => env c0
    end.

(** ** What the specification says about the tick period *)

(** The minimum of the positive elements of a list of intervals, if any. *)
Fixpoint minPositive (l : list Duration) : option Duration :=
  match l with
  | [] => None
  | d :: rest =>
      if 0 <? d then
        match minPositive rest with
        | Some m => Some (Z.min d m)
        | None => Some d
        end
      else minPositive rest
  end.

(** "The minimum positive interval, or one minute if none is positive". *)
Definition specTickPeriod (tasks : list Task) : Duration :=
  match minPositive (map interval tasks) with
  | Some m => m
  | None => Minute
  end.

(** ** A scripted environment, for running the programs on concrete inputs *)

(** The state of a scripted environment is the number of calls answered so
    far; an answer may depend on the call and on that number. *)
Definition scripted (answer : forall c : call, nat -> resp c) : Env nat :=
  fun c n => (answer c n, S n).

(** The answer of a collaborator that has nothing to report: no error, no
    package, an empty queue, an empty list.  The clock reads 1000 ns plus the
    number of calls answered so far. *)
Definition idle (c : call) (n : nat) : resp c :=
  match c as c0 return resp c0 with
  | DbPopNewCrawl _ => (EmptyString, false, None)
  | CrawlDoc _ _ _ _ _ => (None, None)
  | DbAddBadCrawl _ _ => None
  | DbGet _ _ => (None, [], zeroTime, None)
  | DbSetNextCrawlEtag _ _ _ _ => None
  | DbGetGob _ _ => (EmptyString, None)
  | GetGitHubUpdates last => (last, [], None)
  | DbBumpCrawl _ _ => None
  | DbPutGob _ _ _ => None
  | DatabaseNew => (OpenedDb 0, None)
  | DbAllPackages _ => ([], None)
  | ParseQuery _ => ([], None)
  | ShouldSuppressPackages _ _ _ => []
  | DbPut _ _ _ _ => None
  | TimeNow => 1000 + Z.of_nat n
  | TimeSleep _ => tt
  | LogPrintf _ _ => tt
  | LogPrintln _ => tt
  | Fn _ => None
  end.


(** A configuration in which only the crawl task is enabled, every two
    minutes. *)
Definition cfgCrawlEveryTwoMinutes : Config :=
  mkConfig 0 (2 * Minute) 0 (24 * Hour) EmptyString.

(** ** Properties of every run of a program *)

(** [Always A P Q p]: in every run of [p] in which the answers satisfy [A],
    every call made satisfies [P] and the returned value satisfies [Q]. *)
Inductive Always (A : forall c : call, resp c -> Prop) (P : call -> Prop)
    {R : Type} (Q : R -> Prop) : Prog R -> Prop :=
| Always_Ret (r : R) : Q r -> Always A P Q (Ret r)
| Always_Do (c : call) (k : resp c -> Prog R) :
    P c -> (forall x : resp c, A c x -> Always A P Q (k x)) ->
    Always A P Q (Do c k).

(** The fields of a task that the scheduler never assigns. *)
Definition static (task : Task) : string * taskfn * Duration :=
  (name task, fn task, interval task).

(** What the predicate [P] on calls has to allow for a task to be run by the
    scheduler: if the task is enabled, the call of its function and, for every
    error that function may return, the logging of that error. *)
Definition taskAllowed (A : forall c : call, resp c -> Prop) (P : call -> Prop)
    (task : Task) : Prop :=
  0 < interval task ->
  P (Fn (fn task)) /\
  forall e, A (Fn (fn task)) (Some e) ->
            P (LogPrintf "Task %s: %v" [AStr (name task); AErr (Some e)]).

(** No assumption on the answers. *)
Definition anyAnswer (c : call) (x : resp c) : Prop := True.

(** The answers in which a call of [doCrawl] returns nil. *)
Definition crawlReturnsNil (c : call) : resp c -> Prop :=
  match c as c0 return resp c0 -> Prop with
  | Fn FnDoCrawl => fun x => x = None
  | _ => fun _ => True
  end.

(** The scheduler's logging call for a failure of the task named [task]. *)
Definition taskFailureLog (task : string) (e : option error) : call :=
  LogPrintf "Task %s: %v" [AStr task; AErr e].

(** Whether a call is a crawl attempt. *)
Definition isCrawlDoc (c : call) : bool :=
  match c with
  | CrawlDoc _ _ _ _ _ => true
  | _ => false
  end.

(** Whether a call reads a package record from the database, which is how
    [doCrawl] starts the refresh of an existing package. *)
Definition isDbGet (c : call) : bool :=
  match c with
  | DbGet _ _ => true
  | _ => false
  end.

(** The logging call that follows a failure of [db.AddBadCrawl]. *)
Definition addBadCrawlLog (importPath : string) (err : option error) : list call :=
  match err with
  | Some e => [LogPrintf "ERROR db.AddBadCrawl(%q): %v" [AStr importPath; AErr (Some e)]]
  | None => []
  end.

(** The logging call that follows a failure of [db.SetNextCrawlEtag]. *)
Definition touchLog (importPath : string) (err : option error) : list call :=
  match err with
  | Some e => [LogPrintf "ERROR db.TouchLastCrawl(%q): %v" [AStr importPath; AErr (Some e)]]
  | None => []
  end.

(** A scripted scenario: the queue of new packages holds "example.com/foo". *)
Definition newTargetAnswers (c : call) (n : nat) : resp c :=
  match c as c0 return resp c0 with
  | DbPopNewCrawl _ => ("example.com/foo"%string, true, None)
  | c0 => idle c0 n
  end.

(** A scripted scenario: the queue of new packages is empty, the package most
    overdue is due, and crawling it fails. *)
Definition examplePackage : Package :=
  mkPackage "example.com/bar" "example.com" "etag-1".

Definition failingRefreshAnswers (c : call) (n : nat) : resp c :=
  match c as c0 return resp c0 with
  | DbGet _ _ => (Some examplePackage, [], 500, None)
  | CrawlDoc _ _ _ _ _ => (None, Some "fetch failed"%string)
  | c0 => idle c0 n
  end.

Definition cfgDefaultMaxAge : Config :=
  mkConfig 0 (10 * Second) 0 (24 * Hour) EmptyString.

Definition cfgMaxAgeZero : Config :=
  mkConfig 0 (10 * Second) 0 0 EmptyString.

(** The time passed to [db.SetNextCrawlEtag] lies strictly after the clock
    readings of the run. *)
Definition rescheduledInFuture (tr : list event) : Prop :=
  forall (d : Database) (root etag : string) (t : Time) (x : option error)
         (now : Time),
    In (ev (DbSetNextCrawlEtag d root etag t) x) tr ->
    In (ev TimeNow now) tr ->
    now < t.

(** ** The shape of the runs of readGitHubUpdates *)

Definition isBumpCrawl (c : call) : bool :=
  match c with
  | DbBumpCrawl _ _ => true
  | _ => false
  end.

(** [bumpTrace names tr]: [tr] attempts to enqueue every identifier of
    [names], in order; each attempt is announced in the log, and each failed
    attempt is followed by the logging of its error and by the attempts for
    the remaining identifiers. *)
Inductive bumpTrace : list string -> list event -> Prop :=
| bump_done : bumpTrace [] []
| bump_ok (name : string) (names : list string) (tr : list event) :
    bumpTrace names tr ->
    bumpTrace (name :: names)
      (ev (LogPrintf "bump crawl github.com/%s" [AStr name]) tt
       :: ev (DbBumpCrawl PkgDb (cat "github.com/" name)) None
       :: tr)
| bump_failed (name : string) (e : error) (names : list string) (tr : list event) :
    bumpTrace names tr ->
    bumpTrace (name :: names)
      (ev (LogPrintf "bump crawl github.com/%s" [AStr name]) tt
       :: ev (DbBumpCrawl PkgDb (cat "github.com/" name)) (Some e)
       :: ev (LogPrintln [AStr "ERROR force crawl:"; AErr (Some e)]) tt
       :: tr).

(** A scripted scenario (scenario 4 of the specification): the stored cursor
    is "A", the feed returns cursor "B" and the identifiers x and y, and
    enqueueing y fails. *)
Definition feedAnswers (c : call) (n : nat) : resp c :=
  match c as c0 return resp c0 with
  | DbGetGob _ _ => ("A"%string, None)
  | GetGitHubUpdates _ => ("B"%string, ["o/x"%string; "o/y"%string], None)
  | DbBumpCrawl _ path =>
      if String.eqb path "github.com/o/y" then Some "queue full"%string else None
  | c0 => idle c0 n
  end.

(** A scripted scenario: the stored cursor cannot be read. *)
Definition corruptCursorAnswers (c : call) (n : nat) : resp c :=
  match c as c0 return resp c0 with
  | DbGetGob _ _ => (EmptyString, Some "gob: bad data"%string)
  | c0 => idle c0 n
  end.

(** ** The shape of the runs of checkPackagesToSuppress *)

Definition isDbPut (c : call) : bool :=
  match c with
  | DbPut _ _ _ _ => true
  | _ => false
  end.

(** A scoring result that carries no error and says "suppress". *)
Definition toSuppress (response : SuppressResponse) : bool :=
  match Error response with
  | Some _ => false
  | None => Suppress response
  end.

(** [suppressTrace db outerErr responses tr]: [tr] handles every scoring
    result of [responses], in order.  A result with an error is logged; a
    result that does not ask for suppression leaves no call; for a result
    that asks for suppression the record is read again from [db], and then
    either the read failed and is logged, or the record read is written back
    with the zero crawl time and the suppression flag set, a failure of that
    write being logged.  In every case the remaining results follow. *)
Inductive suppressTrace (db : Database) (outerErr : option error)
  : list SuppressResponse -> list event -> Prop :=
| suppress_done : suppressTrace db outerErr [] []
| suppress_scoring_failed (r : SuppressResponse) (rs : list SuppressResponse)
    (tr : list event) (e : error) :
    Error r = Some e ->
    suppressTrace db outerErr rs tr ->
    suppressTrace db outerErr (r :: rs)
      (ev (LogPrintf "error while checking package “%s”: %s"
                     [AStr (Path (RPackage r)); AErr outerErr]) tt
       :: tr)
| suppress_not_asked (r : SuppressResponse) (rs : list SuppressResponse)
    (tr : list event) :
    Error r = None -> Suppress r = false ->
    suppressTrace db outerErr rs tr ->
    suppressTrace db outerErr (r :: rs) tr
| suppress_refetch_failed (r : SuppressResponse) (rs : list SuppressResponse)
    (tr : list event) (pkg : option Package) (pkgs : list DbPackage)
    (t : Time) (e : error) :
    Error r = None -> Suppress r = true ->
    suppressTrace db outerErr rs tr ->
    suppressTrace db outerErr (r :: rs)
      (ev (DbGet db (Path (RPackage r))) (pkg, pkgs, t, Some e)
       :: ev (LogPrintf "error retrieving package “%s”: %s"
                        [AStr (Path (RPackage r)); AErr (Some e)]) tt
       :: tr)
| suppress_written (r : SuppressResponse) (rs : list SuppressResponse)
    (tr : list event) (pkg : option Package) (pkgs : list DbPackage) (t : Time) :
    Error r = None -> Suppress r = true ->
    suppressTrace db outerErr rs tr ->
    suppressTrace db outerErr (r :: rs)
      (ev (DbGet db (Path (RPackage r))) (pkg, pkgs, t, None)
       :: ev (DbPut db pkg zeroTime true) None
       :: tr)
| suppress_write_failed (r : SuppressResponse) (rs : list SuppressResponse)
    (tr : list event) (pkg : option Package) (pkgs : list DbPackage) (t : Time)
    (e : error) :
    Error r = None -> Suppress r = true ->
    suppressTrace db outerErr rs tr ->
    suppressTrace db outerErr (r :: rs)
      (ev (DbGet db (Path (RPackage r))) (pkg, pkgs, t, None)
       :: ev (DbPut db pkg zeroTime true) (Some e)
       :: ev (LogPrintf "error updating package “%s”: %s"
                        [AStr (Path (RPackage r)); AErr (Some e)]) tt
       :: tr).

(** Every write of a package record in a list of calls goes to [db], with
    the zero crawl time and the suppression flag set. *)
Definition putsSuppress (db : Database) (cs : list call) : Prop :=
  Forall (fun c => match c with
                   | DbPut d _ t hide => d = db /\ t = zeroTime /\ hide = true
                   | _ => True
                   end) cs.

(** A scripted scenario: three packages are scored; the first is to be
    suppressed, the scoring of the second failed, the third is to be kept. *)
Definition scoredPackages : list SuppressResponse :=
  [ mkSuppressResponse (mkDbPackage "example.com/gone") true None;
    mkSuppressResponse (mkDbPackage "example.com/broken") true (Some "rate limit"%string);
    mkSuppressResponse (mkDbPackage "example.com/alive") false None ].

Definition gonePackage : Package :=
  mkPackage "example.com/gone" "example.com" "etag-7".

Definition suppressAnswers (c : call) (n : nat) : resp c :=
  match c as c0 return resp c0 with
  | DbAllPackages _ =>
      ([mkDbPackage "example.com/gone"; mkDbPackage "example.com/broken";
        mkDbPackage "example.com/alive"], None)
  | ShouldSuppressPackages _ _ _ => scoredPackages
  | DbGet _ _ => (Some gonePackage, [], 700, None)
  | c0 => idle c0 n
  end.

(** The same scenario, except that reading the record again fails. *)
Definition refetchFailsAnswers (c : call) (n : nat) : resp c :=
  match c as c0 return resp c0 with
  | DbGet _ _ => (None, [], zeroTime, Some "connection lost"%string)
  | c0 => suppressAnswers c0 n
  end.

(** ** The shape of one step of the scheduler *)

(** The logging of a task failure by the scheduler. *)
Definition failureLog (task : Task) (err : option error) : list event :=
  match err with
  | Some e => [ev (taskFailureLog (name task) (Some e)) tt]
  | None => []
  end.

(** [taskStep task tr task']: the scheduler looks at [task] once, makes the
    calls [tr] and leaves the task as [task'].  Either the task is not
    eligible at the time [start] read from the clock, nothing else is called
    and the task is unchanged; or it is eligible, its function is called, a
    failure is logged, the clock is read again, and the task's [next] becomes
    that second reading plus the interval. *)
Inductive taskStep (task : Task) : list event -> Task -> Prop :=
| step_skipped (start : Time) :
    (0 <? interval task) && After start (next task) = false ->
    taskStep task [ev TimeNow start] task
| step_invoked (start : Time) (err : option error) (now : Time) :
    0 < interval task ->
    next task < start ->
    taskStep task
      (ev TimeNow start :: ev (Fn (fn task)) err
       :: failureLog task err ++ [ev TimeNow now])
      (mkTask (name task) (fn task) (interval task) (now + interval task)).

(** The clock readings of a run, in order. *)
Definition clockReading (e : event) : list Time :=
  match e with
  | existT _ c x =>
      match c as c0 return resp c0 -> list Time with
      | TimeNow => fun t => [t]
      | _ => fun _ => []
      end x
  end.

Definition clockReadings (tr : list event) : list Time :=
  flat_map clockReading tr.

(** A clock that never goes backwards. *)
Fixpoint nondecreasing (l : list Time) : Prop :=
  match l with
  | [] => True
  | a :: rest =>
      match rest with
      | [] => True
      | b :: _ => a <= b /\ nondecreasing rest
      end
  end.

(** [advanced tr task task']: over the run [tr], the scheduler has kept the
    name, function and interval of the task, and its [next] is either
    untouched, or the interval added to a clock reading of the run in which
    the task's function was called. *)
Definition advanced (tr : list event) (task task' : Task) : Prop :=
  static task' = static task /\
  (next task' = next task \/
   exists now : Time,
     In (ev TimeNow now) tr /\ In (Fn (fn task)) (calls tr) /\
     next task' = now + interval task).

(** A scripted scenario: every task function fails. *)
Definition failingTaskAnswers (c : call) (n : nat) : resp c :=
  match c as c0 return resp c0 with
  | Fn _ => Some "boom"%string
  | c0 => idle c0 n
  end.

Definition crawlTask (next : Time) : Task :=
  mkTask "Crawl" FnDoCrawl (10 * Second) next.

(** [tickSteps tasks tr tasks']: one pass over the task table.  The calls
    [tr] are the calls of one step per task, in table order and with nothing
    in between, and every entry of the table after the pass is the task left
    by the step on the entry before it. *)
Inductive tickSteps : list Task -> list event -> list Task -> Prop :=
| tick_done : tickSteps [] [] []
| tick_step (task : Task) (tr : list event) (task' : Task)
    (rest : list Task) (tr' : list event) (rest' : list Task) :
    taskStep task tr task' ->
    tickSteps rest tr' rest' ->
    tickSteps (task :: rest) (tr ++ tr') (task' :: rest').

(** [loopSteps sleep ticks tasks tr tasks']: [ticks] iterations of the loop.
    Every iteration is one pass over the table as the iteration before left
    it, followed by one sleep of the tick period. *)
Inductive loopSteps (sleep : Duration)
  : nat -> list Task -> list event -> list Task -> Prop :=
| loop_done (tasks : list Task) : loopSteps sleep 0 tasks [] tasks
| loop_tick (ticks : nat) (tasks : list Task) (tr : list event)
    (tasks' : list Task) (tr' : list event) (tasks'' : list Task) :
    tickSteps tasks tr tasks' ->
    loopSteps sleep ticks tasks' tr' tasks'' ->
    loopSteps sleep (S ticks) tasks (tr ++ ev (TimeSleep sleep) tt :: tr') tasks''.

(** ** Further definitions: the calls each function may make *)

(** The database handle a call is made on, if it is a database call. *)
Definition dbOf (c : call) : option Database :=
  match c with
  | DbPopNewCrawl d | DbAddBadCrawl d _ | DbGet d _ | DbSetNextCrawlEtag d _ _ _
  | DbGetGob d _ | DbBumpCrawl d _ | DbPutGob d _ _ | DbAllPackages d
  | DbPut d _ _ _ | ShouldSuppressPackages _ d _ => Some d
  | _ => None
  end.


(** The calls found in the body of [doCrawl]. *)
Definition crawlCall (c : call) : bool :=
  match c with
  | DbPopNewCrawl PkgDb | CrawlDoc _ _ _ _ _ | DbAddBadCrawl PkgDb _
  | DbSetNextCrawlEtag PkgDb _ _ _ | TimeNow | LogPrintf _ _ => true
  | DbGet PkgDb path => String.eqb path "-"
  | _ => false
  end.

(** The calls found in the body of [readGitHubUpdates]: the cursor is read
    and written under the one key, and every path enqueued starts with
    "github.com/". *)
Definition feedCall (c : call) : bool :=
  match c with
  | DbGetGob PkgDb k | DbPutGob PkgDb k _ => String.eqb k key
  | GetGitHubUpdates _ | LogPrintf _ _ | LogPrintln _ => true
  | DbBumpCrawl PkgDb path => String.prefix "github.com/" path
  | _ => false
  end.

(** The calls found in the body of [checkPackagesToSuppress]. *)
Definition suppressCall (c : call) : bool :=
  match c with
  | DatabaseNew | DbAllPackages _ | ParseQuery _ | ShouldSuppressPackages _ _ _
  | DbGet _ _ | LogPrintf _ _ | LogPrintln _ => true
  | DbPut _ _ t hide => Z.eqb t zeroTime && hide
  | _ => false
  end.

(** The collaborators that only [readGitHubUpdates] uses. *)
Definition feedOnly (c : call) : bool :=
  match c with
  | Fn FnReadGitHubUpdates | DbGetGob _ _ | GetGitHubUpdates _
  | DbBumpCrawl _ _ | DbPutGob _ _ _ => true
  | _ => false
  end.

(** The collaborators that only [doCrawl] uses. *)
Definition crawlOnly (c : call) : bool :=
  match c with
  | Fn FnDoCrawl | DbPopNewCrawl _ | CrawlDoc _ _ _ _ _ | DbAddBadCrawl _ _
  | DbSetNextCrawlEtag _ _ _ _ => true
  | _ => false
  end.

(** The collaborators that only [checkPackagesToSuppress] uses. *)
Definition suppressOnly (c : call) : bool :=
  match c with
  | Fn FnCheckPackagesToSuppress | DatabaseNew | DbAllPackages _ | ParseQuery _
  | ShouldSuppressPackages _ _ _ | DbPut _ _ _ _ => true
  | _ => false
  end.

Definition isFn (c : call) : bool :=
  match c with
  | Fn _ => true
  | _ => false
  end.

Definition isSleep (c : call) : bool :=
  match c with
  | TimeSleep _ => true
  | _ => false
  end.

Definition isNow (c : call) : bool :=
  match c with
  | TimeNow => true
  | _ => false
  end.

Definition isParseQuery (c : call) : bool :=
  match c with
  | ParseQuery _ => true
  | _ => false
  end.

(** ** Running the scheduler together with the task bodies *)

(** The calls made inside a call: those of the task body, for a call of a
    task function. *)
Definition innerTrace {World : Type} (cfg : Config) (env : Env World)
    (c : call) (w : World) : list event :=
  match c with
  | Fn f => trace (exec env (taskBody cfg f) w)
  | _ => []
  end.

(** [execDeep] runs a program like [exec (withTasks cfg env)], and records
    after every call of a task function the calls which that function made. *)
Fixpoint execDeep {World R : Type} (cfg : Config) (env : Env World)
    (p : Prog R) (w : World) : Outcome World R :=
  match p with
  | Ret r => mkOutcome [] r w
  | Do c k =>
      let a := withTasks cfg env c w in
      let o := execDeep cfg env (k (fst a)) (snd a) in
      mkOutcome (ev c (fst a) :: innerTrace cfg env c w ++ trace o)
                (result o) (final o)
  end.

(** What a call of the scheduler has to satisfy for [P] to hold of every
    call of the deep run: [P] itself, and, for a call of a task function,
    [P] of every call the body of that function can make. *)
Definition deepAllowed (cfg : Config) (P : call -> Prop) (c : call) : Prop :=
  P c /\
  match c with
  | Fn f => Always anyAnswer P (fun _ : option error => True) (taskBody cfg f)
  | _ => True
  end.

(** ** Further scripted scenarios *)

(** Popping the queue of new packages fails, although a path is returned. *)
Definition popFailsAnswers (c : call) (n : nat) : resp c :=
  match c as c0 return resp c0 with
  | DbPopNewCrawl _ => ("example.com/foo"%string, false, Some "redis: timeout"%string)
  | c0 => idle c0 n
  end.

(** The queue holds "example.com/foo" and its document is fetched. *)
Definition fooPackage : Package :=
  mkPackage "example.com/foo" "example.com" "etag-2".

Definition fetchedAnswers (c : call) (n : nat) : resp c :=
  match c as c0 return resp c0 with
  | DbPopNewCrawl _ => ("example.com/foo"%string, true, None)
  | CrawlDoc _ _ _ _ _ => (Some fooPackage, None)
  | c0 => idle c0 n
  end.

(** The queue is empty and reading the package most overdue fails. *)
Definition getFailsAnswers (c : call) (n : nat) : resp c :=
  match c as c0 return resp c0 with
  | DbGet _ _ => (None, [], zeroTime, Some "redis: timeout"%string)
  | c0 => idle c0 n
  end.

(** The queue is empty and the package most overdue is due at [due]; crawling
    it succeeds. *)
Definition refreshAnswers (due : Time) (c : call) (n : nat) : resp c :=
  match c as c0 return resp c0 with
  | DbGet _ _ => (Some examplePackage, [mkDbPackage "example.com/bar/sub"], due, None)
  | CrawlDoc _ _ _ _ _ => (Some examplePackage, None)
  | c0 => idle c0 n
  end.

(** The stored cursor is "A" and the feed cannot be reached. *)
Definition feedDownAnswers (c : call) (n : nat) : resp c :=
  match c as c0 return resp c0 with
  | DbGetGob _ _ => ("A"%string, None)
  | GetGitHubUpdates _ => (EmptyString, [], Some "github: 503"%string)
  | c0 => idle c0 n
  end.

(** The stored cursor is "A" and the feed reports no change and cursor "B". *)
Definition quietFeedAnswers (c : call) (n : nat) : resp c :=
  match c as c0 return resp c0 with
  | DbGetGob _ _ => ("A"%string, None)
  | GetGitHubUpdates _ => ("B"%string, [], None)
  | c0 => idle c0 n
  end.

(** [database.New] fails. *)
Definition noDatabaseAnswers (c : call) (n : nat) : resp c :=
  match c as c0 return resp c0 with
  | DatabaseNew => (PkgDb, Some "dial tcp: refused"%string)
  | c0 => idle c0 n
  end.

(** Listing the packages fails. *)
Definition noListingAnswers (c : call) (n : nat) : resp c :=
  match c as c0 return resp c0 with
  | DbAllPackages _ => ([], Some "redis: timeout"%string)
  | c0 => idle c0 n
  end.

(** The GitHub credentials do not parse. *)
Definition badCredentialsAnswers (c : call) (n : nat) : resp c :=
  match c as c0 return resp c0 with
  | ParseQuery _ => ([], Some "invalid semicolon separator in query"%string)
  | c0 => idle c0 n
  end.

(** The GitHub credentials parse into an id and a secret. *)
Definition credentialsAnswers (c : call) (n : nat) : resp c :=
  match c as c0 return resp c0 with
  | ParseQuery _ =>
      ([("client_id"%string, ["id-1"%string]);
        ("client_secret"%string, ["s3cret"%string; "ignored"%string])], None)
  | c0 => idle c0 n
  end.

Definition cfgWithCredentials : Config :=
  mkConfig 0 0 Hour (24 * Hour) "client_id=id-1&client_secret=s3cret".

Definition cfgAllEnabled : Config :=
  mkConfig (5 * Minute) (10 * Second) Hour (24 * Hour) EmptyString.

Definition cfgAllDisabled : Config :=
  mkConfig 0 (-1 * Second) 0 (24 * Hour) EmptyString.

(** A call found in the body of [checkPackagesToSuppress] which, if it is a
    database call, is made on the handle [db]. *)
Definition suppressCallOn (db : Database) (c : call) : Prop :=
  suppressCall c = true /\ (dbOf c = None \/ dbOf c = Some db).
(** ** Running programs: general facts *)

Section Running.

Context {World : Type}.
Variable env : Env World.

Lemma exec_bind {A B : Type} (p : Prog A) (f : A -> Prog B) (w : World) :
  exec env (bindP p f) w =
  mkOutcome (trace (exec env p w) ++ trace (exec env (f (result (exec env p w)))
                                                 (final (exec env p w))))
            (result (exec env (f (result (exec env p w))) (final (exec env p w))))
            (final (exec env (f (result (exec env p w))) (final (exec env p w)))).
Proof.
  revert w. induction p as [a | c k IH]; intros w; simpl.
  - destruct (exec env (f a) w); reflexivity.
  - rewrite IH. reflexivity.
Qed.

Lemma trace_bind {A B : Type} (p : Prog A) (f : A -> Prog B) (w : World) :
  trace (exec env (bindP p f) w) =
  trace (exec env p w) ++
  trace (exec env (f (result (exec env p w))) (final (exec env p w))).
Proof. rewrite exec_bind. reflexivity. Qed.

Lemma result_bind {A B : Type} (p : Prog A) (f : A -> Prog B) (w : World) :
  result (exec env (bindP p f) w) =
  result (exec env (f (result (exec env p w))) (final (exec env p w))).
Proof. rewrite exec_bind. reflexivity. Qed.

End Running.

(** Case analysis on the answer of the next call, or on the data the program
    branches on. *)
Ltac answer :=
  match goal with
  | |- context [?env ?c ?w] =>
      match type of env with
      | Env _ => let a := fresh "a" in let w' := fresh "w" in
                 destruct (env c w) as [a w']; simpl fst; simpl snd
      end
  | |- context [match ?x with _ => _ end] => is_var x; destruct x
  | |- context [if ?b then _ else _] => destruct b eqn:?
  end.

Ltac run := simpl; repeat (answer; simpl).

(** ** The tick period *)

Lemma sleepStep_min (sleep : Duration) (task : Task) :
  sleepStep sleep task =
  if 0 <? interval task then Z.min sleep (interval task) else sleep.
Proof.
  unfold sleepStep.
  destruct (Z.ltb_spec 0 (interval task)); simpl; [| reflexivity].
  destruct (Z.ltb_spec (interval task) sleep); lia.
Qed.

Lemma fold_sleepStep (tasks : list Task) (sleep : Duration) :
  fold_left sleepStep tasks sleep =
  match minPositive (map interval tasks) with
  | Some m => Z.min sleep m
  | None => sleep
  end.
Proof.
  revert sleep. induction tasks as [| task rest IH]; intros sleep; simpl.
  - reflexivity.
  - rewrite IH, sleepStep_min.
    destruct (0 <? interval task); [| reflexivity].
    destruct (minPositive (map interval rest)); lia.
Qed.

Lemma minPositive_some (l : list Duration) (m : Duration) :
  minPositive l = Some m ->
  In m l /\ 0 < m /\ forall d, In d l -> 0 < d -> m <= d.
Proof.
  revert m. induction l as [| d rest IH]; intros m; simpl; [discriminate |].
  destruct (Z.ltb_spec 0 d) as [Hd | Hd].
  - destruct (minPositive rest) as [m' |] eqn:E.
    + intros [= <-]. destruct (IH m' eq_refl) as (Hin & Hpos & Hmin).
      split; [| split].
      * destruct (Z.min_spec d m') as [[_ ->] | [_ ->]]; auto.
      * lia.
      * intros x [<- | Hx] Hx0; [lia |]. specialize (Hmin x Hx Hx0). lia.
    + intros [= <-]. split; [auto | split; [assumption |]].
      intros x [<- | Hx] Hx0; [lia |].
      exfalso. clear IH. induction rest as [| y rest' IHr]; [contradiction |].
      simpl in E. destruct (Z.ltb_spec 0 y).
      * destruct (minPositive rest'); discriminate.
      * destruct Hx as [<- | Hx]; [lia | auto].
  - intros Hm. destruct (IH m Hm) as (Hin & Hpos & Hmin).
    split; [auto | split; [assumption |]].
    intros x [<- | Hx] Hx0; [lia | auto].
Qed.

Lemma minPositive_none (l : list Duration) :
  minPositive l = None -> forall d, In d l -> d <= 0.
Proof.
  induction l as [| x rest IH]; simpl; [contradiction |].
  destruct (Z.ltb_spec 0 x).
  - destruct (minPositive rest); discriminate.
  - intros E d [<- | Hd]; [lia | auto].
Qed.

(** C1 (as amended): the tick period computed at the start of
    [runBackgroundTasks] is the minimum of one minute and of all positive
    configured intervals: one minute when no interval is positive, and
    otherwise the smaller of one minute and the minimum positive interval. *)
Theorem sleepPeriod_min_of_minute_and_positive (tasks : list Task) :
  sleepPeriod tasks =
  match minPositive (map interval tasks) with
  | Some m => Z.min Minute m
  | None => Minute
  end.
Proof. unfold sleepPeriod. apply fold_sleepStep. Qed.

(** C1 as stated fails: with the crawl interval set to two minutes and the
    other tasks disabled, the minimum positive interval is two minutes but the
    tick period is one minute. *)
Lemma sleepPeriod_two_minutes_counterexample :
  let tasks := backgroundTasks cfgCrawlEveryTwoMinutes in
  (exists task, In task tasks /\ 0 < interval task) /\
  minPositive (map interval tasks) = Some (2 * Minute) /\
  sleepPeriod tasks = Minute /\
  sleepPeriod tasks <> specTickPeriod tasks.
Proof.
  split; [| split; [| split]].
  - exists (mkTask "Crawl" FnDoCrawl (2 * Minute) zeroTime).
    split; [right; left; reflexivity | reflexivity].
  - reflexivity.
  - reflexivity.
  - vm_compute. discriminate.
Qed.

(** ** Properties of every run *)

Section AlwaysFacts.

Context {World : Type}.
Variable A : forall c : call, resp c -> Prop.
Variable P : call -> Prop.

Lemma Always_bind {R S : Type} (Q : R -> Prop) (Q' : S -> Prop)
    (p : Prog R) (f : R -> Prog S) :
  Always A P Q p -> (forall r, Q r -> Always A P Q' (f r)) ->
  Always A P Q' (bindP p f).
Proof.
  intros Hp Hf. induction Hp as [r Hr | c k Hc Hk IH]; simpl.
  - apply Hf, Hr.
  - constructor; [exact Hc | intros x Hx; apply IH, Hx].
Qed.

Lemma Always_weaken {R : Type} (Q Q' : R -> Prop) (p : Prog R) :
  (forall r, Q r -> Q' r) -> Always A P Q p -> Always A P Q' p.
Proof.
  intros HQ Hp. induction Hp; constructor; auto.
Qed.

Lemma Always_exec {R : Type} (Q : R -> Prop) (env : Env World) (p : Prog R) :
  (forall c w, A c (fst (env c w))) ->
  Always A P Q p ->
  forall w, Forall P (calls (trace (exec env p w))) /\ Q (result (exec env p w)).
Proof.
  intros Henv Hp. induction Hp as [r Hr | c k Hc Hk IH]; intros w; simpl.
  - split; [constructor | exact Hr].
  - destruct (IH (fst (env c w)) (Henv c w) (snd (env c w))) as [Ht Hr].
    split; [constructor; assumption | exact Hr].
Qed.

End AlwaysFacts.

Ltac always :=
  simpl;
  repeat match goal with
         | |- Always _ _ _ (Ret _) => apply Always_Ret
         | |- Always _ _ _ (Do _ _) => apply Always_Do; [| intros ? ?]
         | |- Always _ _ _ (match ?x with _ => _ end) => destruct x eqn:?
         | |- Always _ _ _ (bindP (match ?x with _ => _ end) _) =>
             destruct x eqn:?; simpl
         end.

(** ** The scheduler loop *)

Section Scheduler.

Variable A : forall c : call, resp c -> Prop.
Variable P : call -> Prop.

Hypothesis P_now : P TimeNow.
Hypothesis P_sleep : forall d, P (TimeSleep d).

Lemma runTask_always (task : Task) :
  taskAllowed A P task ->
  Always A P (fun task' => static task' = static task) (runTask task).
Proof.
  intros Hok. unfold runTask. always; try reflexivity; try exact P_now.
  all: try apply andb_prop in Heqb; destruct Heqb as [Hpos _];
       apply Z.ltb_lt in Hpos; destruct (Hok Hpos) as [Hfn Hlog]; auto.
Qed.

Lemma runTasks_always (tasks : list Task) :
  Forall (taskAllowed A P) tasks ->
  Always A P (fun tasks' => map static tasks' = map static tasks) (runTasks tasks).
Proof.
  induction 1 as [| task rest Htask Hrest IH]; cbn [runTasks map].
  - constructor. reflexivity.
  - eapply Always_bind; [apply runTask_always, Htask |].
    intros task' Htask'. eapply Always_bind; [apply IH |].
    intros rest' Hrest'. constructor. simpl. congruence.
Qed.

Lemma taskAllowed_static (task task' : Task) :
  static task' = static task -> taskAllowed A P task -> taskAllowed A P task'.
Proof.
  unfold static, taskAllowed. intros [= Hn Hf Hi]. rewrite Hn, Hf, Hi. auto.
Qed.

Lemma Forall_taskAllowed_static (tasks tasks' : list Task) :
  map static tasks' = map static tasks ->
  Forall (taskAllowed A P) tasks -> Forall (taskAllowed A P) tasks'.
Proof.
  revert tasks. induction tasks' as [| t' rest' IH]; intros [| t rest];
    simpl; try discriminate; intros E H.
  - constructor.
  - assert (Et : static t' = static t) by congruence.
    assert (Er : map static rest' = map static rest) by congruence.
    inversion H as [| ? ? Ht Hrest]; subst.
    constructor.
    + exact (taskAllowed_static t t' Et Ht).
    + exact (IH rest Er Hrest).
Qed.

Lemma tickLoop_always (ticks : nat) (sleep : Duration) (tasks : list Task) :
  Forall (taskAllowed A P) tasks ->
  Always A P (fun tasks' => map static tasks' = map static tasks)
         (tickLoop ticks sleep tasks).
Proof.
  revert tasks. induction ticks as [| ticks IH]; intros tasks Hok;
    cbn [tickLoop].
  - constructor. reflexivity.
  - eapply Always_bind; [apply runTasks_always, Hok |].
    intros tasks' Hst. apply Always_Do; [apply P_sleep |].
    intros _ _.
    apply Always_weaken
      with (Q := fun tasks'' => map static tasks'' = map static tasks').
    + intros r Hr. congruence.
    + apply IH. exact (Forall_taskAllowed_static tasks tasks' Hst Hok).
Qed.

End Scheduler.

Lemma table_states (cfg : Config) (tasks : list Task) :
  map static tasks = map static (backgroundTasks cfg) ->
  exists t1 t2 t3,
    tasks = [t1; t2; t3] /\
    static t1 = ("GitHub updates"%string, FnReadGitHubUpdates, github_interval cfg) /\
    static t2 = ("Crawl"%string, FnDoCrawl, crawl_interval cfg) /\
    static t3 = ("Suppress packages"%string, FnCheckPackagesToSuppress,
                 suppress_packages cfg).
Proof.
  destruct tasks as [| t1 [| t2 [| t3 [| t4 rest]]]]; simpl; try discriminate.
  intros [= H1 H2 H3 H4 H5 H6 H7 H8 H9].
  exists t1, t2, t3. unfold static. repeat split; congruence.
Qed.

(** C3: a task of the table whose configured interval is zero is never
    invoked: whatever the next-eligible timestamps of the table, whatever the
    clock and the other collaborators answer and however many ticks the loop
    makes, the function of that task is not called. *)
Theorem zero_interval_task_never_invoked
    (cfg : Config) (tasks : list Task) (task : Task)
    (ticks : nat) (sleep : Duration)
    (World : Type) (env : Env World) (w : World) :
  map static tasks = map static (backgroundTasks cfg) ->
  In task tasks ->
  interval task = 0 ->
  ~ In (Fn (fn task)) (calls (trace (exec env (tickLoop ticks sleep tasks) w))).
Proof.
  intros Htable Hin Hzero.
  assert (Hok : Forall (taskAllowed anyAnswer (fun c => c <> Fn (fn task))) tasks).
  { destruct (table_states cfg tasks Htable) as (t1 & t2 & t3 & -> & H1 & H2 & H3).
    unfold static in *.
    injection H1 as N1 F1 I1. injection H2 as N2 F2 I2. injection H3 as N3 F3 I3.
    assert (Hdis : forall t, In t [t1; t2; t3] -> fn t = fn task -> interval t = 0).
    { intros t Ht Hf. simpl in Ht, Hin.
      destruct Ht as [<- | [<- | [<- | []]]];
        destruct Hin as [<- | [<- | [<- | []]]]; congruence. }
    rewrite Forall_forall. intros t Ht Hpos. split.
    - intros [= Hf]. specialize (Hdis t Ht Hf). lia.
    - intros e _. discriminate. }
  set (P := fun c : call => c <> Fn (fn task)) in *.
  assert (Hnow : P TimeNow) by (unfold P; discriminate).
  assert (Hsleep : forall d, P (TimeSleep d)) by (unfold P; discriminate).
  pose proof (tickLoop_always anyAnswer P Hnow Hsleep ticks sleep tasks Hok)
    as Hall.
  destruct (Always_exec anyAnswer P _ env _ (fun _ _ => I) Hall w)
    as [Hcalls _].
  rewrite Forall_forall in Hcalls. intros Hcall.
  exact (Hcalls _ Hcall eq_refl).
Qed.

(** C3 on a concrete run: three ticks of [runBackgroundTasks] with only the
    crawl task enabled never call [readGitHubUpdates]. *)
Lemma zero_interval_task_never_invoked_witness :
  let cfg := cfgCrawlEveryTwoMinutes in
  let task := mkTask "GitHub updates" FnReadGitHubUpdates 0 zeroTime in
  map static (backgroundTasks cfg) = map static (backgroundTasks cfg) /\
  In task (backgroundTasks cfg) /\
  interval task = 0 /\
  ~ In (Fn FnReadGitHubUpdates)
       (calls (trace (exec (scripted idle) (runBackgroundTasks cfg 3) 0%nat))).
Proof.
  split; [reflexivity | split; [left; reflexivity | split; [reflexivity |]]].
  apply (zero_interval_task_never_invoked cfgCrawlEveryTwoMinutes
           (backgroundTasks cfgCrawlEveryTwoMinutes)
           (mkTask "GitHub updates" FnReadGitHubUpdates 0 zeroTime)
           3 (sleepPeriod (backgroundTasks cfgCrawlEveryTwoMinutes))
           nat (scripted idle) 0%nat).
  - reflexivity.
  - left; reflexivity.
  - reflexivity.
Defined.

(** ** doCrawl never fails *)

Lemma doCrawl_always_nil (cfg : Config) :
  Always anyAnswer (fun _ => True) (fun r : option error => r = None) (doCrawl cfg).
Proof. unfold doCrawl. always; auto. Qed.

Lemma doCrawl_result (cfg : Config) (World : Type) (env : Env World) (w : World) :
  result (exec env (doCrawl cfg) w) = None.
Proof.
  apply (Always_exec anyAnswer (fun _ => True) _ env (doCrawl cfg)
           (fun _ _ => I) (doCrawl_always_nil cfg) w).
Qed.

Lemma withTasks_crawlReturnsNil (cfg : Config) (World : Type) (env : Env World)
    (c : call) (w : World) :
  crawlReturnsNil c (fst (withTasks cfg env c w)).
Proof.
  destruct c; simpl; auto.
  destruct f; simpl; auto. apply doCrawl_result.
Qed.

(** C10: [doCrawl] returns nil on every execution path, whatever its
    collaborators answer; so when the scheduler runs the task table with the
    real task functions behind the [fn] fields, it never logs a failure of the
    task named "Crawl". *)
Theorem doCrawl_never_reports_failure (cfg : Config) (World : Type)
    (env : Env World) (w : World) :
  result (exec env (doCrawl cfg) w) = None /\
  forall (ticks : nat) (e : option error),
    ~ In (taskFailureLog "Crawl" e)
         (calls (trace (exec (withTasks cfg env) (runBackgroundTasks cfg ticks) w))).
Proof.
  split; [apply doCrawl_result |].
  intros ticks e Hcall.
  assert (Hok : Forall (taskAllowed crawlReturnsNil
                          (fun c => forall e', c <> taskFailureLog "Crawl" e'))
                       (backgroundTasks cfg)).
  { unfold taskFailureLog.
    repeat constructor; simpl; try discriminate; intros; discriminate. }
  set (P := fun c : call => forall e', c <> taskFailureLog "Crawl" e') in *.
  assert (Hnow : P TimeNow) by (unfold P, taskFailureLog; discriminate).
  assert (Hsleep : forall d, P (TimeSleep d))
    by (unfold P, taskFailureLog; discriminate).
  pose proof (tickLoop_always crawlReturnsNil P Hnow Hsleep ticks
                (sleepPeriod (backgroundTasks cfg)) (backgroundTasks cfg) Hok)
    as Hall.
  destruct (Always_exec crawlReturnsNil P _ (withTasks cfg env) _
              (withTasks_crawlReturnsNil cfg World env) Hall w) as [Hcalls _].
  rewrite Forall_forall in Hcalls.
  exact (Hcalls _ Hcall e eq_refl).
Qed.

(** C10 on a concrete run: with the crawl task enabled and a crawl that
    fails, [doCrawl] returns nil and two ticks of the scheduler log no failure
    of the task "Crawl". *)
Lemma doCrawl_never_reports_failure_witness :
  result (exec (scripted failingRefreshAnswers) (doCrawl cfgDefaultMaxAge) 0%nat) = None /\
  ~ In (taskFailureLog "Crawl" (Some "fetch failed"%string))
       (calls (trace (exec (withTasks cfgDefaultMaxAge (scripted failingRefreshAnswers))
                           (runBackgroundTasks cfgDefaultMaxAge 2) 0%nat))).
Proof.
  destruct (doCrawl_never_reports_failure cfgDefaultMaxAge nat
              (scripted failingRefreshAnswers) 0%nat) as [Hnil Hlog].
  split; [exact Hnil | exact (Hlog 2%nat (Some "fetch failed"%string))].
Defined.

(** ** doCrawl *)

Lemma eqb_empty_false (s : string) : s <> EmptyString -> String.eqb s "" = false.
Proof. intros H. apply String.eqb_neq. exact H. Qed.

(** C5: when [doCrawl] pops a new crawl target and the fetch returns a nil
    document with a nil error, [db.AddBadCrawl] is called with that import
    path, and [doCrawl] returns nil having made no other crawl attempt: its
    calls are the pop, the one fetch, [AddBadCrawl], and a logging call if
    [AddBadCrawl] failed. *)
Theorem doCrawl_marks_bad_crawl (cfg : Config) (World : Type) (env : Env World)
    (w w1 w2 : World) (importPath : string) (hasSubdirs : bool) :
  env (DbPopNewCrawl PkgDb) w = ((importPath, hasSubdirs, None), w1) ->
  importPath <> EmptyString ->
  env (CrawlDoc "new" importPath None hasSubdirs zeroTime) w1 = ((None, None), w2) ->
  calls (trace (exec env (doCrawl cfg) w)) =
    [DbPopNewCrawl PkgDb;
     CrawlDoc "new" importPath None hasSubdirs zeroTime;
     DbAddBadCrawl PkgDb importPath]
    ++ addBadCrawlLog importPath (fst (env (DbAddBadCrawl PkgDb importPath) w2)) /\
  result (exec env (doCrawl cfg) w) = None.
Proof.
  intros Hpop Hpath Hfetch. split; [| apply doCrawl_result].
  unfold doCrawl. simpl. rewrite Hpop. simpl.
  rewrite (eqb_empty_false importPath Hpath). simpl.
  rewrite Hfetch. simpl.
  destruct (env (DbAddBadCrawl PkgDb importPath) w2) as [[e |] w3]; reflexivity.
Qed.

(** C5 on a concrete run (scenario 1 of the specification): the queue holds
    "example.com/foo" and the fetch returns nil, nil. *)
Lemma doCrawl_marks_bad_crawl_witness :
  calls (trace (exec (scripted newTargetAnswers) (doCrawl cfgDefaultMaxAge) 0%nat)) =
    [DbPopNewCrawl PkgDb;
     CrawlDoc "new" "example.com/foo" None true zeroTime;
     DbAddBadCrawl PkgDb "example.com/foo"] /\
  result (exec (scripted newTargetAnswers) (doCrawl cfgDefaultMaxAge) 0%nat) = None.
Proof.
  apply (doCrawl_marks_bad_crawl cfgDefaultMaxAge nat (scripted newTargetAnswers)
           0%nat 1%nat 2%nat "example.com/foo" true).
  - reflexivity.
  - discriminate.
  - reflexivity.
Defined.

(** C4: one invocation of [doCrawl] makes at most one crawl attempt; and when
    the queue of new packages yields a target, that target is the one crawled
    (as a new package) and the database is not asked for an existing package
    to refresh. *)
Theorem doCrawl_one_target_new_first (cfg : Config) (World : Type)
    (env : Env World) (w : World) :
  (length (filter isCrawlDoc (calls (trace (exec env (doCrawl cfg) w)))) <= 1)%nat /\
  forall (importPath : string) (hasSubdirs : bool) (w1 : World),
    env (DbPopNewCrawl PkgDb) w = ((importPath, hasSubdirs, None), w1) ->
    importPath <> EmptyString ->
    filter isCrawlDoc (calls (trace (exec env (doCrawl cfg) w))) =
      [CrawlDoc "new" importPath None hasSubdirs zeroTime] /\
    filter isDbGet (calls (trace (exec env (doCrawl cfg) w))) = [].
Proof.
  split.
  - unfold doCrawl. run; lia.
  - intros importPath hasSubdirs w1 Hpop Hpath.
    unfold doCrawl. simpl. rewrite Hpop. simpl.
    rewrite (eqb_empty_false importPath Hpath). simpl.
    run; split; reflexivity.
Qed.

(** C4 on a concrete run: the queue holds "example.com/foo". *)
Lemma doCrawl_one_target_new_first_witness :
  (length (filter isCrawlDoc
     (calls (trace (exec (scripted newTargetAnswers) (doCrawl cfgDefaultMaxAge) 0%nat))))
   <= 1)%nat /\
  filter isCrawlDoc
    (calls (trace (exec (scripted newTargetAnswers) (doCrawl cfgDefaultMaxAge) 0%nat))) =
    [CrawlDoc "new" "example.com/foo" None true zeroTime] /\
  filter isDbGet
    (calls (trace (exec (scripted newTargetAnswers) (doCrawl cfgDefaultMaxAge) 0%nat))) = [].
Proof.
  destruct (doCrawl_one_target_new_first cfgDefaultMaxAge nat
              (scripted newTargetAnswers) 0%nat) as [Hone Hnew].
  split; [exact Hone |].
  apply (Hnew "example.com/foo"%string true 1%nat).
  - reflexivity.
  - discriminate.
Defined.

(** C6 (as amended): when the queue of new packages is empty, the package
    most overdue is due and crawling it fails, [doCrawl] calls
    [db.SetNextCrawlEtag] for the project root and etag of that package with
    the time [now + maxAge/3] (a truncating division), where [now] is read
    from the clock after the failed crawl; that time is strictly after [now]
    exactly when [maxAge] is at least 3 nanoseconds. *)
Theorem doCrawl_reschedules_failed_refresh (cfg : Config) (World : Type)
    (env : Env World) (w w1 w2 w3 w4 w5 : World)
    (hasSubdirs : bool) (pdoc : Package) (pkgs : list DbPackage)
    (nextCrawl now1 now2 : Time) (doc : option Package) (e : error) :
  env (DbPopNewCrawl PkgDb) w = ((EmptyString, hasSubdirs, None), w1) ->
  env (DbGet PkgDb "-") w1 = ((Some pdoc, pkgs, nextCrawl, None), w2) ->
  env TimeNow w2 = (now1, w3) ->
  nextCrawl <= now1 ->
  env (CrawlDoc "crawl" (ImportPath pdoc) (Some pdoc)
                (0 <? Z.of_nat (length pkgs)) nextCrawl) w3 = ((doc, Some e), w4) ->
  env TimeNow w4 = (now2, w5) ->
  let at_ := now2 + Z.quot (maxAge cfg) 3 in
  let touch := DbSetNextCrawlEtag PkgDb (ProjectRoot pdoc) (Etag pdoc) at_ in
  calls (trace (exec env (doCrawl cfg) w)) =
    [DbPopNewCrawl PkgDb; DbGet PkgDb "-"; TimeNow;
     CrawlDoc "crawl" (ImportPath pdoc) (Some pdoc)
              (0 <? Z.of_nat (length pkgs)) nextCrawl;
     TimeNow; touch]
    ++ touchLog (ImportPath pdoc) (fst (env touch w5)) /\
  (now2 < at_ <-> 3 <= maxAge cfg).
Proof.
  intros Hpop Hget Hnow1 Hdue Hfetch Hnow2 at_ touch. split.
  - unfold doCrawl. simpl. rewrite Hpop. simpl. rewrite Hget. simpl.
    rewrite Hnow1. simpl. unfold After.
    destruct (Z.ltb_spec now1 nextCrawl) as [Hlt | _]; [lia |].
    simpl. rewrite Hfetch. simpl. rewrite Hnow2. simpl.
    unfold touch, at_, Add.
    destruct (env _ w5) as [[e' |] w6]; reflexivity.
  - unfold at_. split; intros H.
    + destruct (Z.lt_ge_cases (maxAge cfg) 3) as [Hsmall | Hbig]; [| exact Hbig].
      exfalso.
      assert (Z.quot (maxAge cfg) 3 <= 0).
      { destruct (Z.le_gt_cases 0 (maxAge cfg)) as [Hnn | Hneg].
        - rewrite Z.quot_small by lia. lia.
        - apply Z.quot_le_upper_bound; lia. }
      lia.
    + assert (1 <= Z.quot (maxAge cfg) 3) by (apply Z.quot_le_lower_bound; lia).
      lia.
Qed.

(** C6 on a concrete run, with the default maximum age of 24 hours. *)
Lemma doCrawl_reschedules_failed_refresh_witness :
  calls (trace (exec (scripted failingRefreshAnswers) (doCrawl cfgDefaultMaxAge) 0%nat)) =
    [DbPopNewCrawl PkgDb; DbGet PkgDb "-"; TimeNow;
     CrawlDoc "crawl" "example.com/bar" (Some examplePackage) false 500;
     TimeNow;
     DbSetNextCrawlEtag PkgDb "example.com" "etag-1" (1004 + 8 * Hour)] /\
  (1004 < 1004 + Z.quot (24 * Hour) 3 <-> 3 <= 24 * Hour).
Proof.
  apply (doCrawl_reschedules_failed_refresh cfgDefaultMaxAge nat
           (scripted failingRefreshAnswers) 0%nat 1%nat 2%nat 3%nat 4%nat 5%nat
           false examplePackage [] 500 1002 1004 None "fetch failed"%string).
  - reflexivity.
  - reflexivity.
  - reflexivity.
  - vm_compute. discriminate.
  - reflexivity.
  - reflexivity.
Defined.

(** C6 as stated fails: with the maximum age set to zero, a failed refresh
    reschedules the package to the very instant read from the clock, which is
    not strictly in the future. *)
Lemma reschedule_with_zero_maxAge_counterexample :
  calls (trace (exec (scripted failingRefreshAnswers) (doCrawl cfgMaxAgeZero) 0%nat)) =
    [DbPopNewCrawl PkgDb; DbGet PkgDb "-"; TimeNow;
     CrawlDoc "crawl" "example.com/bar" (Some examplePackage) false 500;
     TimeNow;
     DbSetNextCrawlEtag PkgDb "example.com" "etag-1" 1004] /\
  In (ev TimeNow 1004)
     (trace (exec (scripted failingRefreshAnswers) (doCrawl cfgMaxAgeZero) 0%nat)) /\
  ~ rescheduledInFuture
      (trace (exec (scripted failingRefreshAnswers) (doCrawl cfgMaxAgeZero) 0%nat)).
Proof.
  split; [reflexivity | split].
  - simpl. auto 10.
  - intros H.
    specialize (H PkgDb "example.com"%string "etag-1"%string 1004 None 1004).
    assert (1004 < 1004); [| lia].
    apply H; simpl; auto 10.
Qed.

(** ** readGitHubUpdates *)

(** C8: if reading the persisted cursor fails, [readGitHubUpdates] returns
    that error at once: the read of the cursor is the only call of the run, so
    the feed is not called, nothing is enqueued and the cursor is not
    written. *)
Theorem readGitHubUpdates_fails_fast (World : Type) (env : Env World)
    (w w1 : World) (last : string) (e : error) :
  env (DbGetGob PkgDb key) w = ((last, Some e), w1) ->
  exec env readGitHubUpdates w =
    mkOutcome [ev (DbGetGob PkgDb key) (last, Some e)] (Some e) w1.
Proof.
  intros Hget. unfold readGitHubUpdates. simpl. rewrite Hget. reflexivity.
Qed.

(** C8 on a concrete run. *)
Lemma readGitHubUpdates_fails_fast_witness :
  exec (scripted corruptCursorAnswers) readGitHubUpdates 0%nat =
    mkOutcome [ev (DbGetGob PkgDb key) (EmptyString, Some "gob: bad data"%string)]
              (Some "gob: bad data"%string) 1%nat.
Proof.
  apply (readGitHubUpdates_fails_fast nat (scripted corruptCursorAnswers)
           0%nat 1%nat EmptyString "gob: bad data"%string).
  reflexivity.
Defined.

Lemma bumpCrawls_trace (World : Type) (env : Env World) (names : list string)
    (w : World) :
  bumpTrace names (trace (exec env (bumpCrawls names) w)).
Proof.
  revert w. induction names as [| name rest IH]; intros w; cbn [bumpCrawls].
  - constructor.
  - change (bumpTrace (name :: rest)
              (trace (exec env (bindP (bumpCrawl name) (fun _ => bumpCrawls rest)) w))).
    rewrite trace_bind. unfold bumpCrawl. simpl.
    destruct (env (LogPrintf "bump crawl github.com/%s" [AStr name]) w)
      as [[] w1]; simpl.
    destruct (env (DbBumpCrawl PkgDb (cat "github.com/" name)) w1) as [[e |] w2];
      simpl.
    + destruct (env (LogPrintln [AStr "ERROR force crawl:"; AErr (Some e)]) w2)
        as [[] w3]; simpl.
      exact (bump_failed name e rest _ (IH w3)).
    + exact (bump_ok name rest _ (IH w2)).
Qed.

Lemma bumpTrace_calls (names : list string) (tr : list event) :
  bumpTrace names tr ->
  filter isBumpCrawl (calls tr) =
    map (fun name => DbBumpCrawl PkgDb (cat "github.com/" name)) names.
Proof.
  induction 1; simpl; congruence.
Qed.

(** C7: in a run of [readGitHubUpdates] whose feed poll succeeds, the new
    cursor is written by the last call of the run, after an enqueue has been
    attempted for every identifier of the batch, in order; an enqueue that
    fails is followed by the logging of its error and then by the remaining
    enqueues and the write of the cursor. *)
Theorem readGitHubUpdates_cursor_after_bumps (World : Type) (env : Env World)
    (w w1 w2 : World) (last last' : string) (names : list string) :
  env (DbGetGob PkgDb key) w = ((last, None), w1) ->
  env (GetGitHubUpdates last) w1 = ((last', names, None), w2) ->
  exists (mid : list event) (r : option error),
    trace (exec env readGitHubUpdates w) =
      ev (DbGetGob PkgDb key) (last, None)
      :: ev (GetGitHubUpdates last) (last', names, None)
      :: mid ++ [ev (DbPutGob PkgDb key last') r] /\
    bumpTrace names mid /\
    filter isBumpCrawl (calls mid) =
      map (fun name => DbBumpCrawl PkgDb (cat "github.com/" name)) names /\
    result (exec env readGitHubUpdates w) = r.
Proof.
  intros Hget Hfeed.
  exists (trace (exec env (bumpCrawls names) w2)).
  exists (fst (env (DbPutGob PkgDb key last') (final (exec env (bumpCrawls names) w2)))).
  pose proof (bumpCrawls_trace World env names w2) as Hmid.
  split; [| split; [exact Hmid | split; [exact (bumpTrace_calls _ _ Hmid) |]]].
  - unfold readGitHubUpdates. simpl. rewrite Hget. simpl. rewrite Hfeed. simpl.
    rewrite trace_bind. simpl.
    match goal with
    | |- context [env (DbPutGob ?d ?k ?v) ?x] =>
        destruct (env (DbPutGob d k v) x) as [[e |] w3]
    end; reflexivity.
  - unfold readGitHubUpdates. simpl. rewrite Hget. simpl. rewrite Hfeed. simpl.
    rewrite result_bind. simpl.
    match goal with
    | |- context [env (DbPutGob ?d ?k ?v) ?x] =>
        destruct (env (DbPutGob d k v) x) as [[e |] w3]
    end; reflexivity.
Qed.

(** Scenario 4 of the specification, run: x is enqueued, the enqueue of y
    fails and is logged, and the cursor "B" is written. *)
Example readGitHubUpdates_scenario_4 :
  calls (trace (exec (scripted feedAnswers) readGitHubUpdates 0%nat)) =
    [DbGetGob PkgDb key; GetGitHubUpdates "A";
     LogPrintf "bump crawl github.com/%s" [AStr "o/x"];
     DbBumpCrawl PkgDb "github.com/o/x";
     LogPrintf "bump crawl github.com/%s" [AStr "o/y"];
     DbBumpCrawl PkgDb "github.com/o/y";
     LogPrintln [AStr "ERROR force crawl:"; AErr (Some "queue full"%string)];
     DbPutGob PkgDb key "B"].
Proof. reflexivity. Qed.

(** C7 on a concrete run (scenario 4 of the specification). *)
Lemma readGitHubUpdates_cursor_after_bumps_witness :
  exists (mid : list event) (r : option error),
    trace (exec (scripted feedAnswers) readGitHubUpdates 0%nat) =
      ev (DbGetGob PkgDb key) ("A"%string, None)
      :: ev (GetGitHubUpdates "A") ("B"%string, ["o/x"%string; "o/y"%string], None)
      :: mid ++ [ev (DbPutGob PkgDb key "B") r] /\
    bumpTrace ["o/x"%string; "o/y"%string] mid /\
    filter isBumpCrawl (calls mid) =
      map (fun name => DbBumpCrawl PkgDb (cat "github.com/" name))
          ["o/x"%string; "o/y"%string] /\
    result (exec (scripted feedAnswers) readGitHubUpdates 0%nat) = r.
Proof.
  apply (readGitHubUpdates_cursor_after_bumps nat (scripted feedAnswers)
           0%nat 1%nat 2%nat "A"%string "B"%string ["o/x"%string; "o/y"%string]).
  - reflexivity.
  - reflexivity.
Defined.

(** ** checkPackagesToSuppress *)

Lemma suppressAll_trace (World : Type) (env : Env World) (db : Database)
    (outerErr : option error) (responses : list SuppressResponse) (w : World) :
  suppressTrace db outerErr responses
    (trace (exec env (suppressAll db outerErr responses) w)).
Proof.
  revert w. induction responses as [| r rest IH]; intros w; cbn [suppressAll].
  - constructor.
  - change (suppressTrace db outerErr (r :: rest)
              (trace (exec env (bindP (suppressOne db outerErr r)
                                      (fun _ => suppressAll db outerErr rest)) w))).
    rewrite trace_bind. unfold suppressOne.
    destruct (Error r) as [e |] eqn:He.
    + simpl.
      match goal with
      | |- context [env ?c w] => destruct (env c w) as [[] w1]
      end.
      simpl. exact (suppress_scoring_failed db outerErr r rest _ e He (IH w1)).
    + destruct (Suppress r) eqn:Hs; simpl.
      * destruct (env (DbGet db (Path (RPackage r))) w)
          as [[[[pkg pkgs] t] [e |]] w1]; simpl.
        -- match goal with
           | |- context [env ?c w1] => destruct (env c w1) as [[] w2]
           end.
           simpl.
           exact (suppress_refetch_failed db outerErr r rest _ pkg pkgs t e
                    He Hs (IH w2)).
        -- destruct (env (DbPut db pkg zeroTime true) w1) as [[e |] w2]; simpl.
           ++ match goal with
              | |- context [env ?c w2] => destruct (env c w2) as [[] w3]
              end.
              simpl.
              exact (suppress_write_failed db outerErr r rest _ pkg pkgs t e
                       He Hs (IH w3)).
           ++ exact (suppress_written db outerErr r rest _ pkg pkgs t
                       He Hs (IH w2)).
      * exact (suppress_not_asked db outerErr r rest _ He Hs (IH w)).
Qed.

Lemma suppressTrace_gets (db : Database) (outerErr : option error)
    (responses : list SuppressResponse) (tr : list event) :
  suppressTrace db outerErr responses tr ->
  filter isDbGet (calls tr) =
    map (fun r => DbGet db (Path (RPackage r))) (filter toSuppress responses).
Proof.
  induction 1 as [| r rs tr e He _ IH | r rs tr He Hs _ IH
                  | r rs tr pkg pkgs t e He Hs _ IH
                  | r rs tr pkg pkgs t He Hs _ IH
                  | r rs tr pkg pkgs t e He Hs _ IH];
    simpl; try reflexivity;
    (assert (Hr' : toSuppress r = match Error r with
                                  | Some _ => false
                                  | None => Suppress r
                                  end) by reflexivity);
    rewrite He in Hr'; try rewrite Hs in Hr'; rewrite Hr'; simpl;
    congruence.
Qed.

Lemma suppressTrace_puts (db : Database) (outerErr : option error)
    (responses : list SuppressResponse) (tr : list event) :
  suppressTrace db outerErr responses tr -> putsSuppress db (calls tr).
Proof.
  unfold putsSuppress.
  induction 1; simpl; repeat constructor; auto.
Qed.

(** C9 (as amended): in a run of [checkPackagesToSuppress] that reaches the
    scoring, the results are handled one by one, in order, and all of them are
    handled.  A result that carries an error or does not ask for suppression
    causes no read and no write of a package record.  For a result that asks
    for suppression the record is read again from the database; when that
    read succeeds the record read is written back with the zero crawl time and
    the suppression flag set, and when it fails the failure is logged and
    nothing is written.  No failure on one result stops the handling of the
    others, and the function returns nil. *)
Theorem checkPackagesToSuppress_results (cfg : Config) (World : Type)
    (env : Env World) (w w1 w2 w3 w4 : World) (db : Database)
    (pkgs : list DbPackage) (trAuth : list event) (auth : option GithubAuth)
    (responses : list SuppressResponse) :
  env DatabaseNew w = ((db, None), w1) ->
  env (DbAllPackages db) w1 = ((pkgs, None), w2) ->
  exec env (githubAuth cfg) w2 = mkOutcome trAuth (inr auth) w3 ->
  env (ShouldSuppressPackages pkgs db auth) w3 = (responses, w4) ->
  exists loop : list event,
    trace (exec env (checkPackagesToSuppress cfg) w) =
      ev DatabaseNew (db, None)
      :: ev (DbAllPackages db) (pkgs, None)
      :: trAuth ++ ev (ShouldSuppressPackages pkgs db auth) responses :: loop /\
    suppressTrace db None responses loop /\
    filter isDbGet (calls loop) =
      map (fun r => DbGet db (Path (RPackage r))) (filter toSuppress responses) /\
    putsSuppress db (calls loop) /\
    result (exec env (checkPackagesToSuppress cfg) w) = None.
Proof.
  intros Hnew Hall Hauth Hscore.
  exists (trace (exec env (suppressAll db None responses) w4)).
  pose proof (suppressAll_trace World env db None responses w4) as Hloop.
  split; [| split; [exact Hloop | split;
            [exact (suppressTrace_gets _ _ _ _ Hloop) | split;
             [exact (suppressTrace_puts _ _ _ _ Hloop) |]]]].
  - unfold checkPackagesToSuppress. simpl. rewrite Hnew. simpl.
    rewrite Hall. simpl. rewrite trace_bind, Hauth. simpl.
    rewrite Hscore. simpl. rewrite trace_bind. simpl.
    rewrite app_nil_r. reflexivity.
  - unfold checkPackagesToSuppress. simpl. rewrite Hnew. simpl.
    rewrite Hall. simpl. rewrite result_bind, Hauth. simpl.
    rewrite Hscore. simpl. rewrite result_bind. reflexivity.
Qed.

(** C9 on a concrete run: of three scored packages only the first, which is
    to be suppressed, is read again and written back. *)
Lemma checkPackagesToSuppress_results_witness :
  exists loop : list event,
    trace (exec (scripted suppressAnswers) (checkPackagesToSuppress cfgDefaultMaxAge) 0%nat) =
      ev DatabaseNew (OpenedDb 0, None)
      :: ev (DbAllPackages (OpenedDb 0))
            ([mkDbPackage "example.com/gone"; mkDbPackage "example.com/broken";
              mkDbPackage "example.com/alive"], None)
      :: [] ++ ev (ShouldSuppressPackages
                     [mkDbPackage "example.com/gone"; mkDbPackage "example.com/broken";
                      mkDbPackage "example.com/alive"] (OpenedDb 0) None)
                  scoredPackages :: loop /\
    suppressTrace (OpenedDb 0) None scoredPackages loop /\
    filter isDbGet (calls loop) = [DbGet (OpenedDb 0) "example.com/gone"] /\
    putsSuppress (OpenedDb 0) (calls loop) /\
    result (exec (scripted suppressAnswers) (checkPackagesToSuppress cfgDefaultMaxAge) 0%nat)
      = None.
Proof.
  apply (checkPackagesToSuppress_results cfgDefaultMaxAge nat
           (scripted suppressAnswers) 0%nat 1%nat 2%nat 2%nat 3%nat (OpenedDb 0)
           [mkDbPackage "example.com/gone"; mkDbPackage "example.com/broken";
            mkDbPackage "example.com/alive"] [] None scoredPackages).
  - reflexivity.
  - reflexivity.
  - reflexivity.
  - reflexivity.
Defined.

Example checkPackagesToSuppress_run :
  calls (trace (exec (scripted suppressAnswers)
                     (checkPackagesToSuppress cfgDefaultMaxAge) 0%nat)) =
    [DatabaseNew; DbAllPackages (OpenedDb 0);
     ShouldSuppressPackages
       [mkDbPackage "example.com/gone"; mkDbPackage "example.com/broken";
        mkDbPackage "example.com/alive"] (OpenedDb 0) None;
     DbGet (OpenedDb 0) "example.com/gone";
     DbPut (OpenedDb 0) (Some gonePackage) zeroTime true;
     LogPrintf "error while checking package “%s”: %s"
               [AStr "example.com/broken"; AErr None]].
Proof. reflexivity. Qed.

(** C9 as stated fails: the first scoring result says that
    "example.com/gone" should be suppressed, the read of its record fails,
    and the run writes no package record at all. *)
Lemma suppress_without_write_counterexample :
  In (mkSuppressResponse (mkDbPackage "example.com/gone") true None) scoredPackages /\
  calls (trace (exec (scripted refetchFailsAnswers)
                     (checkPackagesToSuppress cfgDefaultMaxAge) 0%nat)) =
    [DatabaseNew; DbAllPackages (OpenedDb 0);
     ShouldSuppressPackages
       [mkDbPackage "example.com/gone"; mkDbPackage "example.com/broken";
        mkDbPackage "example.com/alive"] (OpenedDb 0) None;
     DbGet (OpenedDb 0) "example.com/gone";
     LogPrintf "error retrieving package “%s”: %s"
               [AStr "example.com/gone"; AErr (Some "connection lost"%string)];
     LogPrintf "error while checking package “%s”: %s"
               [AStr "example.com/broken"; AErr None]] /\
  filter isDbPut
    (calls (trace (exec (scripted refetchFailsAnswers)
                        (checkPackagesToSuppress cfgDefaultMaxAge) 0%nat))) = [].
Proof.
  split; [left; reflexivity | split; reflexivity].
Qed.

(** ** One step of the scheduler *)

Lemma runTask_step (World : Type) (env : Env World) (task : Task) (w : World) :
  taskStep task (trace (exec env (runTask task) w))
                (result (exec env (runTask task) w)).
Proof.
  unfold runTask. simpl.
  destruct (env TimeNow w) as [start w1]; simpl.
  destruct ((0 <? interval task) && After start (next task)) eqn:Hcond; simpl.
  - apply andb_prop in Hcond. destruct Hcond as [Hpos Hafter].
    apply Z.ltb_lt in Hpos. unfold After in Hafter. apply Z.ltb_lt in Hafter.
    destruct (env (Fn (fn task)) w1) as [[e |] w2]; simpl.
    + match goal with
      | |- context [env ?c w2] => destruct (env c w2) as [[] w3]
      end.
      simpl. destruct (env TimeNow w3) as [now w4]; simpl.
      exact (step_invoked task start (Some e) now Hpos Hafter).
    + destruct (env TimeNow w2) as [now w3]; simpl.
      exact (step_invoked task start None now Hpos Hafter).
  - apply step_skipped. exact Hcond.
Qed.

Lemma taskStep_advanced (task task' : Task) (tr : list event) :
  taskStep task tr task' -> advanced tr task task'.
Proof.
  intros [start Hcond | start err now Hpos Hafter]; split; try reflexivity.
  - left. reflexivity.
  - right. exists now. split; [| split].
    + right. right. apply in_or_app. right. left. reflexivity.
    + right. left. reflexivity.
    + reflexivity.
Qed.

Lemma taskStep_strict (task task' : Task) (tr : list event) :
  taskStep task tr task' ->
  In (Fn (fn task)) (calls tr) ->
  nondecreasing (clockReadings tr) ->
  next task + interval task < next task'.
Proof.
  intros [start Hcond | start err now Hpos Hafter] Hcall Hclock.
  - simpl in Hcall. destruct Hcall as [Hcall | []]. discriminate.
  - destruct err; simpl in Hclock; simpl; lia.
Qed.

Lemma taskStep_untouched (task task' : Task) (tr : list event) :
  taskStep task tr task' ->
  ~ In (Fn (fn task)) (calls tr) ->
  task' = task.
Proof.
  intros [start Hcond | start err now Hpos Hafter] Hcall.
  - reflexivity.
  - exfalso. apply Hcall. right. left. reflexivity.
Qed.

Lemma advanced_incl (tr tr' : list event) (task task' : Task) :
  incl tr tr' -> advanced tr task task' -> advanced tr' task task'.
Proof.
  intros Hincl [Hst [Hsame | (now & Hnow & Hcall & Hnext)]]; split; auto.
  right. exists now. split; [| split]; auto.
  unfold calls in *. apply in_map_iff in Hcall.
  destruct Hcall as (e & He & Hin). apply in_map_iff. exists e. auto.
Qed.

Lemma advanced_trans (tr : list event) (t1 t2 t3 : Task) :
  advanced tr t1 t2 -> advanced tr t2 t3 -> advanced tr t1 t3.
Proof.
  unfold advanced, static.
  intros [Hst12 H12] [Hst23 H23].
  injection Hst12 as Hn12 Hf12 Hi12. injection Hst23 as Hn23 Hf23 Hi23.
  split; [congruence |].
  destruct H23 as [Hsame | (now & Hnow & Hcall & Hnext)].
  - destruct H12 as [Hsame' | (now & Hnow & Hcall & Hnext)].
    + left. congruence.
    + right. exists now. split; [| split]; auto. congruence.
  - right. exists now. split; [| split]; auto; congruence.
Qed.

Lemma Forall2_advanced_incl (tr tr' : list event) (ts ts' : list Task) :
  incl tr tr' -> Forall2 (advanced tr) ts ts' -> Forall2 (advanced tr') ts ts'.
Proof.
  intros Hincl H. induction H; constructor; eauto using advanced_incl.
Qed.

Lemma Forall2_advanced_trans (tr : list event) (ts1 ts2 ts3 : list Task) :
  Forall2 (advanced tr) ts1 ts2 -> Forall2 (advanced tr) ts2 ts3 ->
  Forall2 (advanced tr) ts1 ts3.
Proof.
  intros H12. revert ts3. induction H12 as [| t1 t2 r1 r2 Ht Hr IH];
    intros ts3 H23; inversion H23; subst; constructor.
  - eapply advanced_trans; eauto.
  - apply IH. assumption.
Qed.

Lemma runTasks_advanced (World : Type) (env : Env World) (tasks : list Task)
    (w : World) :
  Forall2 (advanced (trace (exec env (runTasks tasks) w))) tasks
          (result (exec env (runTasks tasks) w)).
Proof.
  revert w. induction tasks as [| task rest IH]; intros w.
  - constructor.
  - change (runTasks (task :: rest))
      with (bindP (runTask task) (fun task' =>
              bindP (runTasks rest) (fun rest' => Ret (task' :: rest')))).
    rewrite exec_bind. cbn [trace result].
    rewrite exec_bind. cbn [trace result exec]. rewrite app_nil_r.
    constructor.
    + eapply advanced_incl; [| apply taskStep_advanced, runTask_step].
      apply incl_appl, incl_refl.
    + eapply Forall2_advanced_incl; [| apply IH].
      apply incl_appr, incl_refl.
Qed.

Lemma tickLoop_advanced (World : Type) (env : Env World) (ticks : nat)
    (sleep : Duration) (tasks : list Task) (w : World) :
  Forall2 (advanced (trace (exec env (tickLoop ticks sleep tasks) w))) tasks
          (result (exec env (tickLoop ticks sleep tasks) w)).
Proof.
  revert tasks w. induction ticks as [| ticks IH]; intros tasks w.
  - simpl. induction tasks; constructor; auto.
    split; [reflexivity | left; reflexivity].
  - change (tickLoop (S ticks) sleep tasks)
      with (bindP (runTasks tasks) (fun tasks' =>
              bindP (perform (TimeSleep sleep)) (fun _ =>
                tickLoop ticks sleep tasks'))).
    rewrite exec_bind. cbn [trace result].
    set (o1 := exec env (runTasks tasks) w).
    rewrite exec_bind. cbn [trace result].
    set (o2 := exec env (perform (TimeSleep sleep)) (final o1)).
    eapply Forall2_advanced_trans.
    + eapply Forall2_advanced_incl; [| apply runTasks_advanced].
      apply incl_appl, incl_refl.
    + eapply Forall2_advanced_incl; [| apply IH].
      apply incl_appr, incl_appr, incl_refl.
Qed.

Lemma runTasks_steps (World : Type) (env : Env World) (tasks : list Task)
    (w : World) :
  tickSteps tasks (trace (exec env (runTasks tasks) w))
            (result (exec env (runTasks tasks) w)).
Proof.
  revert w. induction tasks as [| task rest IH]; intros w.
  - constructor.
  - change (runTasks (task :: rest))
      with (bindP (runTask task) (fun task' =>
              bindP (runTasks rest) (fun rest' => Ret (task' :: rest')))).
    rewrite exec_bind. cbn [trace result].
    rewrite exec_bind. cbn [trace result exec]. rewrite app_nil_r.
    constructor; [apply runTask_step | apply IH].
Qed.

Lemma tickLoop_steps (World : Type) (env : Env World) (ticks : nat)
    (sleep : Duration) (tasks : list Task) (w : World) :
  loopSteps sleep ticks tasks (trace (exec env (tickLoop ticks sleep tasks) w))
            (result (exec env (tickLoop ticks sleep tasks) w)).
Proof.
  revert tasks w. induction ticks as [| ticks IH]; intros tasks w.
  - constructor.
  - change (tickLoop (S ticks) sleep tasks)
      with (bindP (runTasks tasks) (fun tasks' =>
              bindP (perform (TimeSleep sleep)) (fun _ =>
                tickLoop ticks sleep tasks'))).
    rewrite exec_bind. cbn [trace result].
    rewrite exec_bind. cbn [trace result final exec perform app].
    destruct (fst (env (TimeSleep sleep) (final (exec env (runTasks tasks) w)))).
    eapply loop_tick; [apply runTasks_steps | apply IH].
Qed.

(** C2: whenever the scheduler invokes a task's function, whether that
    function returns nil or an error, the task's [next] is set afterwards to
    the time then read from the clock plus the task's interval; with a clock
    that does not go backwards the new value exceeds the old one by more than
    the interval.  Nothing else assigns [next]: a step that does not invoke
    the function leaves the task as it was.  In a pass over the table the
    entry of every task becomes the task left by its step, so the new [next]
    of an invoked task is what the following ticks see, and a run of any
    number of ticks is made of such passes, each followed by a sleep; over
    the run the name, function and interval of every task are kept and its
    [next] is either untouched or such a clock reading plus the interval. *)
Theorem next_eligible_set_after_every_invocation (World : Type) (env : Env World) :
  (forall (task : Task) (w : World),
     taskStep task (trace (exec env (runTask task) w))
                   (result (exec env (runTask task) w)) /\
     (In (Fn (fn task)) (calls (trace (exec env (runTask task) w))) ->
      nondecreasing (clockReadings (trace (exec env (runTask task) w))) ->
      next task + interval task < next (result (exec env (runTask task) w))) /\
     (~ In (Fn (fn task)) (calls (trace (exec env (runTask task) w))) ->
      result (exec env (runTask task) w) = task)) /\
  (forall (ticks : nat) (sleep : Duration) (tasks : list Task) (w : World),
     Forall2 (advanced (trace (exec env (tickLoop ticks sleep tasks) w))) tasks
             (result (exec env (tickLoop ticks sleep tasks) w))) /\
  (forall (tasks : list Task) (w : World),
     tickSteps tasks (trace (exec env (runTasks tasks) w))
               (result (exec env (runTasks tasks) w))) /\
  (forall (ticks : nat) (sleep : Duration) (tasks : list Task) (w : World),
     loopSteps sleep ticks tasks
               (trace (exec env (tickLoop ticks sleep tasks) w))
               (result (exec env (tickLoop ticks sleep tasks) w))).
Proof.
  split; [| split; [| split]].
  - intros task w. pose proof (runTask_step World env task w) as Hstep.
    split; [exact Hstep | split].
    + apply (taskStep_strict _ _ _ Hstep).
    + apply (taskStep_untouched _ _ _ Hstep).
  - apply tickLoop_advanced.
  - apply runTasks_steps.
  - apply tickLoop_steps.
Qed.

(** C2 on concrete runs: the crawl task, due, is invoked and fails; its
    [next] moves from 0 to the second clock reading, 1003, plus ten seconds.
    The same task with a [next] that is not yet reached is left alone.  In a
    pass over the table with the crawl task enabled, the entry of the crawl
    task after the pass holds the new [next], 1004 plus ten seconds, and the
    second tick of the loop, which starts from that table, does not invoke
    the task again. *)
Lemma next_eligible_set_after_every_invocation_witness :
  (In (Fn FnDoCrawl)
      (calls (trace (exec (scripted failingTaskAnswers) (runTask (crawlTask 0)) 0%nat))) /\
   nondecreasing
     (clockReadings (trace (exec (scripted failingTaskAnswers) (runTask (crawlTask 0)) 0%nat))) /\
   0 + 10 * Second
     < next (result (exec (scripted failingTaskAnswers) (runTask (crawlTask 0)) 0%nat))) /\
  (~ In (Fn FnDoCrawl)
        (calls (trace (exec (scripted failingTaskAnswers) (runTask (crawlTask 5000)) 0%nat))) /\
   result (exec (scripted failingTaskAnswers) (runTask (crawlTask 5000)) 0%nat)
     = crawlTask 5000) /\
  (tickSteps (backgroundTasks cfgDefaultMaxAge)
     (trace (exec (scripted failingTaskAnswers)
                  (runTasks (backgroundTasks cfgDefaultMaxAge)) 0%nat))
     [mkTask "GitHub updates" FnReadGitHubUpdates 0 zeroTime;
      crawlTask (1004 + 10 * Second);
      mkTask "Suppress packages" FnCheckPackagesToSuppress 0 zeroTime]) /\
  (loopSteps (10 * Second) 2 (backgroundTasks cfgDefaultMaxAge)
     (trace (exec (scripted failingTaskAnswers)
                  (runBackgroundTasks cfgDefaultMaxAge 2) 0%nat))
     [mkTask "GitHub updates" FnReadGitHubUpdates 0 zeroTime;
      crawlTask (1004 + 10 * Second);
      mkTask "Suppress packages" FnCheckPackagesToSuppress 0 zeroTime] /\
   calls (trace (exec (scripted failingTaskAnswers)
                      (runBackgroundTasks cfgDefaultMaxAge 2) 0%nat)) =
     [TimeNow;
      TimeNow; Fn FnDoCrawl; taskFailureLog "Crawl" (Some "boom"%string); TimeNow;
      TimeNow; TimeSleep (10 * Second);
      TimeNow; TimeNow; TimeNow; TimeSleep (10 * Second)]).
Proof.
  destruct (next_eligible_set_after_every_invocation nat (scripted failingTaskAnswers))
    as (Hstep & _ & Hpass & Hloop).
  split; [| split; [| split]].
  - destruct (Hstep (crawlTask 0) 0%nat) as (_ & Hstrict & _).
    assert (Hcall : In (Fn FnDoCrawl)
      (calls (trace (exec (scripted failingTaskAnswers) (runTask (crawlTask 0)) 0%nat))))
      by (simpl; auto).
    assert (Hclock : nondecreasing
      (clockReadings (trace (exec (scripted failingTaskAnswers) (runTask (crawlTask 0)) 0%nat))))
      by (simpl; lia).
    split; [exact Hcall | split; [exact Hclock | exact (Hstrict Hcall Hclock)]].
  - destruct (Hstep (crawlTask 5000) 0%nat) as (_ & _ & Hsame).
    assert (Hno : ~ In (Fn FnDoCrawl)
      (calls (trace (exec (scripted failingTaskAnswers) (runTask (crawlTask 5000)) 0%nat))))
      by (simpl; intros [H | []]; discriminate).
    split; [exact Hno | exact (Hsame Hno)].
  - exact (Hpass (backgroundTasks cfgDefaultMaxAge) 0%nat).
  - split; [| reflexivity].
    exact (Hloop 2%nat (10 * Second) (backgroundTasks cfgDefaultMaxAge) 0%nat).
Defined.

Example runTask_failing_task :
  exec (scripted failingTaskAnswers) (runTask (crawlTask 0)) 0%nat =
    mkOutcome
      [ev TimeNow 1000; ev (Fn FnDoCrawl) (Some "boom"%string);
       ev (taskFailureLog "Crawl" (Some "boom"%string)) tt; ev TimeNow 1003]
      (crawlTask (1003 + 10 * Second)) 4%nat.
Proof. reflexivity. Qed.

Example runTask_succeeding_task :
  exec (scripted idle) (runTask (crawlTask 0)) 0%nat =
    mkOutcome
      [ev TimeNow 1000; ev (Fn FnDoCrawl) None; ev TimeNow 1002]
      (crawlTask (1002 + 10 * Second)) 3%nat.
Proof. reflexivity. Qed.

(** * Further properties of background.go *)

(** ** doCrawl: the other paths *)

(** X1: when popping the queue of new packages fails, [doCrawl] logs the
    error and stops: nothing is crawled and no existing package is looked up,
    even if the failed pop returned a path. *)
Theorem doCrawl_pop_error (cfg : Config) (World : Type) (env : Env World)
    (w w1 : World) (importPath : string) (hasSubdirs : bool) (e : error) :
  env (DbPopNewCrawl PkgDb) w = ((importPath, hasSubdirs, Some e), w1) ->
  calls (trace (exec env (doCrawl cfg) w)) =
    [DbPopNewCrawl PkgDb;
     LogPrintf "db.PopNewCrawl() returned error %v" [AErr (Some e)]].
Proof.
  intros Hpop. unfold doCrawl. simpl. rewrite Hpop. reflexivity.
Qed.

Lemma doCrawl_pop_error_witness :
  calls (trace (exec (scripted popFailsAnswers) (doCrawl cfgDefaultMaxAge) 0%nat)) =
    [DbPopNewCrawl PkgDb;
     LogPrintf "db.PopNewCrawl() returned error %v"
               [AErr (Some "redis: timeout"%string)]].
Proof.
  apply (doCrawl_pop_error cfgDefaultMaxAge nat (scripted popFailsAnswers)
           0%nat 1%nat "example.com/foo"%string false "redis: timeout"%string).
  reflexivity.
Defined.

(** X2: a new target whose fetch returns a document or an error is not
    marked as a bad crawl: the run is the pop and the fetch, nothing more. *)
Theorem doCrawl_new_target_not_marked (cfg : Config) (World : Type)
    (env : Env World) (w w1 w2 : World) (importPath : string)
    (hasSubdirs : bool) (doc : option Package) (err : option error) :
  env (DbPopNewCrawl PkgDb) w = ((importPath, hasSubdirs, None), w1) ->
  importPath <> EmptyString ->
  env (CrawlDoc "new" importPath None hasSubdirs zeroTime) w1 = ((doc, err), w2) ->
  doc <> None \/ err <> None ->
  exec env (doCrawl cfg) w =
    mkOutcome
      [ev (DbPopNewCrawl PkgDb) (importPath, hasSubdirs, None);
       ev (CrawlDoc "new" importPath None hasSubdirs zeroTime) (doc, err)]
      None w2.
Proof.
  intros Hpop Hpath Hfetch Hsome.
  unfold doCrawl. simpl. rewrite Hpop. simpl.
  rewrite (eqb_empty_false importPath Hpath). simpl. rewrite Hfetch. simpl.
  destruct doc as [d |]; [reflexivity |].
  destruct err as [e |]; [reflexivity |].
  destruct Hsome as [H | H]; contradiction H; reflexivity.
Qed.

Lemma doCrawl_new_target_not_marked_witness :
  exec (scripted fetchedAnswers) (doCrawl cfgDefaultMaxAge) 0%nat =
    mkOutcome
      [ev (DbPopNewCrawl PkgDb) ("example.com/foo"%string, true, None);
       ev (CrawlDoc "new" "example.com/foo" None true zeroTime)
          (Some fooPackage, None)]
      None 2%nat.
Proof.
  apply (doCrawl_new_target_not_marked cfgDefaultMaxAge nat (scripted fetchedAnswers)
           0%nat 1%nat 2%nat "example.com/foo"%string true (Some fooPackage) None).
  - reflexivity.
  - discriminate.
  - reflexivity.
  - left. discriminate.
Defined.

(** X3: with an empty queue, a failure to read the package most overdue is
    logged and nothing is crawled or rescheduled. *)
Theorem doCrawl_get_error (cfg : Config) (World : Type) (env : Env World)
    (w w1 w2 : World) (hasSubdirs : bool) (pdoc : option Package)
    (pkgs : list DbPackage) (nextCrawl : Time) (e : error) :
  env (DbPopNewCrawl PkgDb) w = ((EmptyString, hasSubdirs, None), w1) ->
  env (DbGet PkgDb "-") w1 = ((pdoc, pkgs, nextCrawl, Some e), w2) ->
  calls (trace (exec env (doCrawl cfg) w)) =
    [DbPopNewCrawl PkgDb; DbGet PkgDb "-";
     LogPrintf (cat "db.Get(" (cat dquote (cat "-" (cat dquote
                  ") returned error %v")))) [AErr (Some e)]].
Proof.
  intros Hpop Hget. unfold doCrawl. simpl. rewrite Hpop. simpl.
  rewrite Hget. reflexivity.
Qed.

Lemma doCrawl_get_error_witness :
  calls (trace (exec (scripted getFailsAnswers) (doCrawl cfgDefaultMaxAge) 0%nat)) =
    [DbPopNewCrawl PkgDb; DbGet PkgDb "-";
     LogPrintf (cat "db.Get(" (cat dquote (cat "-" (cat dquote
                  ") returned error %v"))))
               [AErr (Some "redis: timeout"%string)]].
Proof.
  apply (doCrawl_get_error cfgDefaultMaxAge nat (scripted getFailsAnswers)
           0%nat 1%nat 2%nat false None [] zeroTime "redis: timeout"%string).
  - reflexivity.
  - reflexivity.
Defined.

(** X4: with an empty queue and no package in the catalog, [doCrawl] stops
    after the lookup, without even reading the clock. *)
Theorem doCrawl_no_package (cfg : Config) (World : Type) (env : Env World)
    (w w1 w2 : World) (hasSubdirs : bool) (pkgs : list DbPackage)
    (nextCrawl : Time) :
  env (DbPopNewCrawl PkgDb) w = ((EmptyString, hasSubdirs, None), w1) ->
  env (DbGet PkgDb "-") w1 = ((None, pkgs, nextCrawl, None), w2) ->
  exec env (doCrawl cfg) w =
    mkOutcome
      [ev (DbPopNewCrawl PkgDb) (EmptyString, hasSubdirs, None);
       ev (DbGet PkgDb "-") (None, pkgs, nextCrawl, None)]
      None w2.
Proof.
  intros Hpop Hget. unfold doCrawl. simpl. rewrite Hpop. simpl.
  rewrite Hget. reflexivity.
Qed.

Lemma doCrawl_no_package_witness :
  exec (scripted idle) (doCrawl cfgDefaultMaxAge) 0%nat =
    mkOutcome
      [ev (DbPopNewCrawl PkgDb) (EmptyString, false, None);
       ev (DbGet PkgDb "-") (None, [], zeroTime, None)]
      None 2%nat.
Proof.
  apply (doCrawl_no_package cfgDefaultMaxAge nat (scripted idle)
           0%nat 1%nat 2%nat false [] zeroTime).
  - reflexivity.
  - reflexivity.
Defined.

(** X5: with an empty queue and a package found, that package is crawled
    exactly when its next-crawl time is not after the clock reading; a package
    due at this very instant is crawled, and one due later is left alone, the
    run ending with the clock reading. *)
Theorem doCrawl_crawls_iff_due (cfg : Config) (World : Type) (env : Env World)
    (w w1 w2 w3 : World) (hasSubdirs : bool) (pdoc : Package)
    (pkgs : list DbPackage) (nextCrawl now : Time) :
  env (DbPopNewCrawl PkgDb) w = ((EmptyString, hasSubdirs, None), w1) ->
  env (DbGet PkgDb "-") w1 = ((Some pdoc, pkgs, nextCrawl, None), w2) ->
  env TimeNow w2 = (now, w3) ->
  (In (CrawlDoc "crawl" (ImportPath pdoc) (Some pdoc)
                (0 <? Z.of_nat (length pkgs)) nextCrawl)
      (calls (trace (exec env (doCrawl cfg) w)))
   <-> nextCrawl <= now) /\
  (now < nextCrawl ->
   calls (trace (exec env (doCrawl cfg) w)) =
     [DbPopNewCrawl PkgDb; DbGet PkgDb "-"; TimeNow]).
Proof.
  intros Hpop Hget Hnow.
  unfold doCrawl. simpl. rewrite Hpop. simpl. rewrite Hget. simpl.
  rewrite Hnow. simpl. unfold After.
  destruct (Z.ltb_spec now nextCrawl) as [Hlater | Hdue]; simpl.
  - split; [| reflexivity]. split; [| lia].
    intros [H | [H | [H | []]]]; discriminate.
  - split; [| lia]. split; [intros _; exact Hdue |].
    intros _. right. right. right. left. reflexivity.
Qed.

Lemma doCrawl_crawls_iff_due_witness :
  (In (CrawlDoc "crawl" "example.com/bar" (Some examplePackage) true 1002)
      (calls (trace (exec (scripted (refreshAnswers 1002)) (doCrawl cfgDefaultMaxAge) 0%nat)))
   <-> 1002 <= 1002) /\
  (1002 < 1002 ->
   calls (trace (exec (scripted (refreshAnswers 1002)) (doCrawl cfgDefaultMaxAge) 0%nat)) =
     [DbPopNewCrawl PkgDb; DbGet PkgDb "-"; TimeNow]).
Proof.
  apply (doCrawl_crawls_iff_due cfgDefaultMaxAge nat (scripted (refreshAnswers 1002))
           0%nat 1%nat 2%nat 3%nat false examplePackage
           [mkDbPackage "example.com/bar/sub"] 1002 1002).
  - reflexivity.
  - reflexivity.
  - reflexivity.
Defined.

(** X6: when the refresh of the package most overdue succeeds, the package
    is not rescheduled by [doCrawl]: the run ends with the crawl, which is
    told whether the package has sub-packages and when it was due. *)
Theorem doCrawl_refresh_ok (cfg : Config) (World : Type) (env : Env World)
    (w w1 w2 w3 w4 : World) (hasSubdirs : bool) (pdoc : Package)
    (pkgs : list DbPackage) (nextCrawl now : Time) (doc : option Package) :
  env (DbPopNewCrawl PkgDb) w = ((EmptyString, hasSubdirs, None), w1) ->
  env (DbGet PkgDb "-") w1 = ((Some pdoc, pkgs, nextCrawl, None), w2) ->
  env TimeNow w2 = (now, w3) ->
  nextCrawl <= now ->
  env (CrawlDoc "crawl" (ImportPath pdoc) (Some pdoc)
                (0 <? Z.of_nat (length pkgs)) nextCrawl) w3 = ((doc, None), w4) ->
  exec env (doCrawl cfg) w =
    mkOutcome
      [ev (DbPopNewCrawl PkgDb) (EmptyString, hasSubdirs, None);
       ev (DbGet PkgDb "-") (Some pdoc, pkgs, nextCrawl, None);
       ev TimeNow now;
       ev (CrawlDoc "crawl" (ImportPath pdoc) (Some pdoc)
                    (0 <? Z.of_nat (length pkgs)) nextCrawl) (doc, None)]
      None w4.
Proof.
  intros Hpop Hget Hnow Hdue Hfetch.
  unfold doCrawl. simpl. rewrite Hpop. simpl. rewrite Hget. simpl.
  rewrite Hnow. simpl. unfold After.
  destruct (Z.ltb_spec now nextCrawl) as [Hlater | _]; [lia |].
  simpl. rewrite Hfetch. reflexivity.
Qed.

Lemma doCrawl_refresh_ok_witness :
  exec (scripted (refreshAnswers 500)) (doCrawl cfgDefaultMaxAge) 0%nat =
    mkOutcome
      [ev (DbPopNewCrawl PkgDb) (EmptyString, false, None);
       ev (DbGet PkgDb "-")
          (Some examplePackage, [mkDbPackage "example.com/bar/sub"], 500, None);
       ev TimeNow 1002;
       ev (CrawlDoc "crawl" "example.com/bar" (Some examplePackage) true 500)
          (Some examplePackage, None)]
      None 4%nat.
Proof.
  apply (doCrawl_refresh_ok cfgDefaultMaxAge nat (scripted (refreshAnswers 500))
           0%nat 1%nat 2%nat 3%nat 4%nat false examplePackage
           [mkDbPackage "example.com/bar/sub"] 500 1002 (Some examplePackage)).
  - reflexivity.
  - reflexivity.
  - reflexivity.
  - vm_compute. discriminate.
  - reflexivity.
Defined.

Lemma doCrawl_footprint (cfg : Config) :
  Always anyAnswer (fun c => crawlCall c = true) (fun _ : option error => True)
         (doCrawl cfg).
Proof. unfold doCrawl. always; auto. Qed.


(** ** readGitHubUpdates: the other paths *)

(** X8: when the feed cannot be polled, [readGitHubUpdates] returns the
    feed's error; nothing is enqueued, whatever identifiers came with the
    error, and the stored cursor is not written. *)
Theorem readGitHubUpdates_feed_error (World : Type) (env : Env World)
    (w w1 w2 : World) (last last' : string) (names : list string) (e : error) :
  env (DbGetGob PkgDb key) w = ((last, None), w1) ->
  env (GetGitHubUpdates last) w1 = ((last', names, Some e), w2) ->
  exec env readGitHubUpdates w =
    mkOutcome
      [ev (DbGetGob PkgDb key) (last, None);
       ev (GetGitHubUpdates last) (last', names, Some e)]
      (Some e) w2.
Proof.
  intros Hget Hfeed. unfold readGitHubUpdates. simpl. rewrite Hget. simpl.
  rewrite Hfeed. reflexivity.
Qed.

Lemma readGitHubUpdates_feed_error_witness :
  exec (scripted feedDownAnswers) readGitHubUpdates 0%nat =
    mkOutcome
      [ev (DbGetGob PkgDb key) ("A"%string, None);
       ev (GetGitHubUpdates "A") (EmptyString, [], Some "github: 503"%string)]
      (Some "github: 503"%string) 2%nat.
Proof.
  apply (readGitHubUpdates_feed_error nat (scripted feedDownAnswers)
           0%nat 1%nat 2%nat "A"%string EmptyString [] "github: 503"%string).
  - reflexivity.
  - reflexivity.
Defined.

(** X9: when the feed reports no changed repository, the cursor it returned
    is still written, and the result of [readGitHubUpdates] is the result of
    that write. *)
Theorem readGitHubUpdates_empty_batch (World : Type) (env : Env World)
    (w w1 w2 w3 : World) (last last' : string) (r : option error) :
  env (DbGetGob PkgDb key) w = ((last, None), w1) ->
  env (GetGitHubUpdates last) w1 = ((last', [], None), w2) ->
  env (DbPutGob PkgDb key last') w2 = (r, w3) ->
  exec env readGitHubUpdates w =
    mkOutcome
      [ev (DbGetGob PkgDb key) (last, None);
       ev (GetGitHubUpdates last) (last', [], None);
       ev (DbPutGob PkgDb key last') r]
      r w3.
Proof.
  intros Hget Hfeed Hput. unfold readGitHubUpdates. simpl. rewrite Hget. simpl.
  rewrite Hfeed. simpl. rewrite Hput. simpl. destruct r; reflexivity.
Qed.

Lemma readGitHubUpdates_empty_batch_witness :
  exec (scripted quietFeedAnswers) readGitHubUpdates 0%nat =
    mkOutcome
      [ev (DbGetGob PkgDb key) ("A"%string, None);
       ev (GetGitHubUpdates "A") ("B"%string, [], None);
       ev (DbPutGob PkgDb key "B") None]
      None 3%nat.
Proof.
  apply (readGitHubUpdates_empty_batch nat (scripted quietFeedAnswers)
           0%nat 1%nat 2%nat 3%nat "A"%string "B"%string None).
  - reflexivity.
  - reflexivity.
  - reflexivity.
Defined.

Lemma Always_calls_mono (A : forall c : call, resp c -> Prop)
    (P P' : call -> Prop) {R : Type} (Q : R -> Prop) (p : Prog R) :
  (forall c, P c -> P' c) -> Always A P Q p -> Always A P' Q p.
Proof.
  intros HP Hp. induction Hp; constructor; auto.
Qed.

Lemma Forall_filter_nil {X : Type} (f : X -> bool) (l : list X) :
  Forall (fun x => f x = false) l -> filter f l = [].
Proof.
  induction 1 as [| x l Hx _ IH]; simpl; [reflexivity |].
  rewrite Hx. exact IH.
Qed.

Ltac always_all := repeat (progress (always; unfold perform)).

Lemma prefix_cat (s t : string) : String.prefix s (cat s t) = true.
Proof.
  unfold cat. induction s as [| a s IH]; simpl.
  - destruct t; reflexivity.
  - destruct (Ascii.ascii_dec a a) as [_ | Hne]; [exact IH | contradiction Hne; reflexivity].
Qed.

Lemma bumpCrawls_footprint (names : list string) :
  Always anyAnswer (fun c => feedCall c = true) (fun _ : unit => True)
         (bumpCrawls names).
Proof.
  induction names as [| name rest IH]; cbn [bumpCrawls].
  - constructor. exact I.
  - apply Always_bind with (Q := fun _ : unit => True); [| intros _ _; exact IH].
    unfold bumpCrawl. always_all; auto; apply prefix_cat.
Qed.

Lemma readGitHubUpdates_footprint :
  Always anyAnswer (fun c => feedCall c = true) (fun _ : option error => True)
         readGitHubUpdates.
Proof.
  unfold readGitHubUpdates. always; auto.
  apply Always_bind with (Q := fun _ : unit => True);
    [apply bumpCrawls_footprint |].
  intros _ _. always; auto.
Qed.

(** X10: whatever its collaborators answer, [readGitHubUpdates] reads and
    writes the cursor only under the key "gitHubUpdates", enqueues only paths
    that start with "github.com/", uses only the package-level database, and
    otherwise only polls the feed and logs. *)
Theorem readGitHubUpdates_calls (World : Type) (env : Env World) (w : World) :
  Forall (fun c => feedCall c = true)
         (calls (trace (exec env readGitHubUpdates w))).
Proof.
  apply (Always_exec anyAnswer (fun c => feedCall c = true) _ env
           readGitHubUpdates (fun _ _ => I) readGitHubUpdates_footprint w).
Qed.

(** ** checkPackagesToSuppress: the other paths *)

(** X11: when the database cannot be opened, [checkPackagesToSuppress] logs
    the error and returns it; no package is listed, scored or written. *)
Theorem checkPackagesToSuppress_no_database (cfg : Config) (World : Type)
    (env : Env World) (w w1 : World) (db : Database) (e : error) :
  env DatabaseNew w = ((db, Some e), w1) ->
  calls (trace (exec env (checkPackagesToSuppress cfg) w)) =
    [DatabaseNew; LogPrintln [AStr "error connecting to database:"; AErr (Some e)]] /\
  result (exec env (checkPackagesToSuppress cfg) w) = Some e.
Proof.
  intros Hnew. unfold checkPackagesToSuppress. simpl. rewrite Hnew.
  split; reflexivity.
Qed.

Lemma checkPackagesToSuppress_no_database_witness :
  calls (trace (exec (scripted noDatabaseAnswers)
                     (checkPackagesToSuppress cfgDefaultMaxAge) 0%nat)) =
    [DatabaseNew;
     LogPrintln [AStr "error connecting to database:";
                 AErr (Some "dial tcp: refused"%string)]] /\
  result (exec (scripted noDatabaseAnswers)
               (checkPackagesToSuppress cfgDefaultMaxAge) 0%nat)
    = Some "dial tcp: refused"%string.
Proof.
  apply (checkPackagesToSuppress_no_database cfgDefaultMaxAge nat
           (scripted noDatabaseAnswers) 0%nat 1%nat PkgDb "dial tcp: refused"%string).
  reflexivity.
Defined.

(** X12: when the packages cannot be listed, [checkPackagesToSuppress] logs
    the error and returns it; the credentials are not parsed and nothing is
    scored or written. *)
Theorem checkPackagesToSuppress_no_listing (cfg : Config) (World : Type)
    (env : Env World) (w w1 w2 : World) (db : Database)
    (pkgs : list DbPackage) (e : error) :
  env DatabaseNew w = ((db, None), w1) ->
  env (DbAllPackages db) w1 = ((pkgs, Some e), w2) ->
  calls (trace (exec env (checkPackagesToSuppress cfg) w)) =
    [DatabaseNew; DbAllPackages db;
     LogPrintln [AStr "error retrieving all packages:"; AErr (Some e)]] /\
  result (exec env (checkPackagesToSuppress cfg) w) = Some e.
Proof.
  intros Hnew Hall. unfold checkPackagesToSuppress. simpl. rewrite Hnew. simpl.
  rewrite Hall. split; reflexivity.
Qed.

Lemma checkPackagesToSuppress_no_listing_witness :
  calls (trace (exec (scripted noListingAnswers)
                     (checkPackagesToSuppress cfgDefaultMaxAge) 0%nat)) =
    [DatabaseNew; DbAllPackages (OpenedDb 0);
     LogPrintln [AStr "error retrieving all packages:";
                 AErr (Some "redis: timeout"%string)]] /\
  result (exec (scripted noListingAnswers)
               (checkPackagesToSuppress cfgDefaultMaxAge) 0%nat)
    = Some "redis: timeout"%string.
Proof.
  apply (checkPackagesToSuppress_no_listing cfgDefaultMaxAge nat
           (scripted noListingAnswers) 0%nat 1%nat 2%nat (OpenedDb 0) []
           "redis: timeout"%string).
  - reflexivity.
  - reflexivity.
Defined.

(** X13: when GitHub credentials are configured but do not parse,
    [checkPackagesToSuppress] logs the error and returns it before any
    package is scored. *)
Theorem checkPackagesToSuppress_bad_credentials (cfg : Config) (World : Type)
    (env : Env World) (w w1 w2 w3 : World) (db : Database)
    (pkgs : list DbPackage) (values : Values) (e : error) :
  gitHubCredentials cfg <> EmptyString ->
  env DatabaseNew w = ((db, None), w1) ->
  env (DbAllPackages db) w1 = ((pkgs, None), w2) ->
  env (ParseQuery (gitHubCredentials cfg)) w2 = ((values, Some e), w3) ->
  calls (trace (exec env (checkPackagesToSuppress cfg) w)) =
    [DatabaseNew; DbAllPackages db; ParseQuery (gitHubCredentials cfg);
     LogPrintln [AStr "error parsing Github auth:"; AErr (Some e)]] /\
  result (exec env (checkPackagesToSuppress cfg) w) = Some e.
Proof.
  intros Hcreds Hnew Hall Hparse.
  unfold checkPackagesToSuppress, githubAuth. simpl. rewrite Hnew. simpl.
  rewrite Hall. simpl. rewrite (eqb_empty_false _ Hcreds). simpl.
  rewrite Hparse. split; reflexivity.
Qed.

Lemma checkPackagesToSuppress_bad_credentials_witness :
  calls (trace (exec (scripted badCredentialsAnswers)
                     (checkPackagesToSuppress cfgWithCredentials) 0%nat)) =
    [DatabaseNew; DbAllPackages (OpenedDb 0);
     ParseQuery "client_id=id-1&client_secret=s3cret";
     LogPrintln [AStr "error parsing Github auth:";
                 AErr (Some "invalid semicolon separator in query"%string)]] /\
  result (exec (scripted badCredentialsAnswers)
               (checkPackagesToSuppress cfgWithCredentials) 0%nat)
    = Some "invalid semicolon separator in query"%string.
Proof.
  apply (checkPackagesToSuppress_bad_credentials cfgWithCredentials nat
           (scripted badCredentialsAnswers) 0%nat 1%nat 2%nat 3%nat (OpenedDb 0) [] []
           "invalid semicolon separator in query"%string).
  - discriminate.
  - reflexivity.
  - reflexivity.
  - reflexivity.
Defined.

Lemma suppressAll_no_parse (db : Database) (outerErr : option error)
    (responses : list SuppressResponse) :
  Always anyAnswer (fun c => isParseQuery c = false) (fun _ : unit => True)
         (suppressAll db outerErr responses).
Proof.
  induction responses as [| r rest IH]; cbn [suppressAll].
  - constructor. exact I.
  - apply Always_bind with (Q := fun _ : unit => True); [| intros _ _; exact IH].
    unfold suppressOne. always_all; auto.
Qed.

(** X14: without configured credentials the query parser is never called in
    the run, and the packages are scored without authentication (a nil
    [auth]), directly after they have been listed. *)
Theorem checkPackagesToSuppress_anonymous (cfg : Config) (World : Type)
    (env : Env World) (w w1 w2 : World) (db : Database) (pkgs : list DbPackage) :
  gitHubCredentials cfg = EmptyString ->
  env DatabaseNew w = ((db, None), w1) ->
  env (DbAllPackages db) w1 = ((pkgs, None), w2) ->
  firstn 3 (calls (trace (exec env (checkPackagesToSuppress cfg) w))) =
    [DatabaseNew; DbAllPackages db; ShouldSuppressPackages pkgs db None] /\
  Forall (fun c => isParseQuery c = false)
         (calls (trace (exec env (checkPackagesToSuppress cfg) w))).
Proof.
  intros Hcreds Hnew Hall.
  unfold checkPackagesToSuppress, githubAuth. simpl. rewrite Hnew. simpl.
  rewrite Hall. simpl. rewrite Hcreds. simpl.
  split; [reflexivity |].
  repeat (constructor; [reflexivity |]).
  rewrite trace_bind. unfold calls. rewrite map_app. apply Forall_app. split.
  - apply (Always_exec anyAnswer (fun c => isParseQuery c = false) _ env _
             (fun _ _ => I) (suppressAll_no_parse db None _)).
  - simpl. constructor.
Qed.

Lemma checkPackagesToSuppress_anonymous_witness :
  firstn 3 (calls (trace (exec (scripted suppressAnswers)
                               (checkPackagesToSuppress cfgDefaultMaxAge) 0%nat))) =
    [DatabaseNew; DbAllPackages (OpenedDb 0);
     ShouldSuppressPackages
       [mkDbPackage "example.com/gone"; mkDbPackage "example.com/broken";
        mkDbPackage "example.com/alive"] (OpenedDb 0) None] /\
  Forall (fun c => isParseQuery c = false)
         (calls (trace (exec (scripted suppressAnswers)
                             (checkPackagesToSuppress cfgDefaultMaxAge) 0%nat))).
Proof.
  apply (checkPackagesToSuppress_anonymous cfgDefaultMaxAge nat
           (scripted suppressAnswers) 0%nat 1%nat 2%nat (OpenedDb 0)
           [mkDbPackage "example.com/gone"; mkDbPackage "example.com/broken";
            mkDbPackage "example.com/alive"]).
  - reflexivity.
  - reflexivity.
  - reflexivity.
Defined.

(** X15: with configured credentials that parse, the packages are scored
    with the first "client_id" value as the id and the first "client_secret"
    value as the secret (the empty string for a missing key). *)
Theorem checkPackagesToSuppress_authenticated (cfg : Config) (World : Type)
    (env : Env World) (w w1 w2 w3 : World) (db : Database)
    (pkgs : list DbPackage) (values : Values) :
  gitHubCredentials cfg <> EmptyString ->
  env DatabaseNew w = ((db, None), w1) ->
  env (DbAllPackages db) w1 = ((pkgs, None), w2) ->
  env (ParseQuery (gitHubCredentials cfg)) w2 = ((values, None), w3) ->
  firstn 4 (calls (trace (exec env (checkPackagesToSuppress cfg) w))) =
    [DatabaseNew; DbAllPackages db; ParseQuery (gitHubCredentials cfg);
     ShouldSuppressPackages pkgs db
       (Some (mkGithubAuth (valuesGet values "client_id")
                           (valuesGet values "client_secret")))].
Proof.
  intros Hcreds Hnew Hall Hparse.
  unfold checkPackagesToSuppress, githubAuth. simpl. rewrite Hnew. simpl.
  rewrite Hall. simpl. rewrite (eqb_empty_false _ Hcreds). simpl.
  rewrite Hparse. reflexivity.
Qed.

Lemma checkPackagesToSuppress_authenticated_witness :
  firstn 4 (calls (trace (exec (scripted credentialsAnswers)
                               (checkPackagesToSuppress cfgWithCredentials) 0%nat))) =
    [DatabaseNew; DbAllPackages (OpenedDb 0);
     ParseQuery "client_id=id-1&client_secret=s3cret";
     ShouldSuppressPackages [] (OpenedDb 0)
       (Some (mkGithubAuth "id-1" "s3cret"))].
Proof.
  apply (checkPackagesToSuppress_authenticated cfgWithCredentials nat
           (scripted credentialsAnswers) 0%nat 1%nat 2%nat 3%nat (OpenedDb 0) []
           [("client_id"%string, ["id-1"%string]);
            ("client_secret"%string, ["s3cret"%string; "ignored"%string])]).
  - discriminate.
  - reflexivity.
  - reflexivity.
  - reflexivity.
Defined.

Lemma suppressAll_footprint (db : Database) (outerErr : option error)
    (responses : list SuppressResponse) :
  Always anyAnswer (suppressCallOn db) (fun _ : unit => True)
         (suppressAll db outerErr responses).
Proof.
  induction responses as [| r rest IH]; cbn [suppressAll].
  - constructor. exact I.
  - apply Always_bind with (Q := fun _ : unit => True); [| intros _ _; exact IH].
    unfold suppressOne. always_all; unfold suppressCallOn; simpl; auto.
Qed.

Lemma checkPackagesToSuppress_after_new (cfg : Config) :
  exists k : resp DatabaseNew -> Prog (option error),
    checkPackagesToSuppress cfg = Do DatabaseNew k /\
    forall (db : Database) (err : option error),
      Always anyAnswer (suppressCallOn db) (fun _ : option error => True)
             (k (db, err)).
Proof.
  eexists. split; [unfold checkPackagesToSuppress; simpl; reflexivity |].
  intros db err. unfold githubAuth.
  always_all; unfold suppressCallOn; simpl; auto.
  all: apply Always_bind with (Q := fun _ : unit => True);
    [apply suppressAll_footprint | intros _ _; constructor; exact I].
Qed.

(** X16: every database call of [checkPackagesToSuppress] is made on the
    handle that [database.New] returned at the start of the run, not on the
    package-level database. *)
Theorem checkPackagesToSuppress_own_database (cfg : Config) (World : Type)
    (env : Env World) (w w1 : World) (db : Database) (err : option error) :
  env DatabaseNew w = ((db, err), w1) ->
  Forall (fun c => dbOf c = None \/ dbOf c = Some db)
         (calls (trace (exec env (checkPackagesToSuppress cfg) w))).
Proof.
  intros Hnew.
  destruct (checkPackagesToSuppress_after_new cfg) as (k & -> & Hk).
  simpl. rewrite Hnew. simpl. constructor; [left; reflexivity |].
  destruct (Always_exec anyAnswer (suppressCallOn db) _ env (k (db, err))
              (fun _ _ => I) (Hk db err) w1) as [Hcalls _].
  eapply Forall_impl; [| exact Hcalls]. intros c [_ Hc]. exact Hc.
Qed.

Lemma checkPackagesToSuppress_own_database_witness :
  Forall (fun c => dbOf c = None \/ dbOf c = Some (OpenedDb 0))
         (calls (trace (exec (scripted suppressAnswers)
                             (checkPackagesToSuppress cfgDefaultMaxAge) 0%nat))).
Proof.
  apply (checkPackagesToSuppress_own_database cfgDefaultMaxAge nat
           (scripted suppressAnswers) 0%nat 1%nat (OpenedDb 0) None).
  reflexivity.
Defined.

Lemma checkPackagesToSuppress_footprint (cfg : Config) :
  Always anyAnswer (fun c => suppressCall c = true) (fun _ : option error => True)
         (checkPackagesToSuppress cfg).
Proof.
  destruct (checkPackagesToSuppress_after_new cfg) as (k & -> & Hk).
  constructor; [reflexivity |]. intros [db err] _.
  eapply Always_calls_mono; [| apply Hk]. intros c [Hc _]. exact Hc.
Qed.

(** X17: whatever its collaborators answer, every package record written by
    [checkPackagesToSuppress] is written with the zero crawl time and the
    suppression flag set; the function never clears a suppression flag, and
    besides that write it only opens the database, lists and reads packages,
    parses the credentials, scores and logs. *)
Theorem checkPackagesToSuppress_calls (cfg : Config) (World : Type)
    (env : Env World) (w : World) :
  Forall (fun c => suppressCall c = true)
         (calls (trace (exec env (checkPackagesToSuppress cfg) w))).
Proof.
  apply (Always_exec anyAnswer (fun c => suppressCall c = true) _ env
           (checkPackagesToSuppress cfg) (fun _ _ => I)
           (checkPackagesToSuppress_footprint cfg) w).
Qed.

Lemma suppressTrace_put_count (db : Database) (outerErr : option error)
    (responses : list SuppressResponse) (tr : list event) :
  suppressTrace db outerErr responses tr ->
  (length (filter isDbPut (calls tr)) <= length (filter toSuppress responses))%nat.
Proof.
  induction 1 as [| r rs tr e He _ IH | r rs tr He Hs _ IH
                  | r rs tr pkg pkgs t e He Hs _ IH
                  | r rs tr pkg pkgs t He Hs _ IH
                  | r rs tr pkg pkgs t e He Hs _ IH];
    simpl; try lia;
    (assert (Hr : toSuppress r = match Error r with
                                 | Some _ => false
                                 | None => Suppress r
                                 end) by reflexivity);
    rewrite He in Hr; try rewrite Hs in Hr; rewrite Hr; simpl; lia.
Qed.

(** X18: the loop over the scoring results writes at most one package record
    per result that carries no error and asks for suppression; in particular
    it writes nothing when no result asks for suppression. *)
Theorem suppressAll_writes_bounded (World : Type) (env : Env World)
    (db : Database) (outerErr : option error)
    (responses : list SuppressResponse) (w : World) :
  (length (filter isDbPut
     (calls (trace (exec env (suppressAll db outerErr responses) w))))
   <= length (filter toSuppress responses))%nat.
Proof.
  apply (suppressTrace_put_count db outerErr responses).
  apply suppressAll_trace.
Qed.

(** ** runBackgroundTasks: the tick period and the loop *)

(** X19: the tick period is always positive and at most one minute, it does
    not exceed the interval of any enabled task, and it is either one minute
    or the interval of one of the tasks; zero and negative intervals never
    shorten it. *)
Theorem sleepPeriod_bounds (tasks : list Task) :
  0 < sleepPeriod tasks <= Minute /\
  (forall task, In task tasks -> 0 < interval task ->
                sleepPeriod tasks <= interval task) /\
  (sleepPeriod tasks = Minute \/
   exists task, In task tasks /\ 0 < interval task /\
                sleepPeriod tasks = interval task).
Proof.
  unfold sleepPeriod. rewrite fold_sleepStep.
  assert (HM : 0 < Minute) by (unfold Minute, Second, Nanosecond; lia).
  destruct (minPositive (map interval tasks)) as [m |] eqn:E.
  - destruct (minPositive_some _ _ E) as (Hin & Hpos & Hmin).
    split; [lia | split].
    + intros task Ht Hp.
      assert (m <= interval task) by (apply Hmin; [apply in_map, Ht | exact Hp]).
      lia.
    + destruct (Z.min_spec Minute m) as [[_ ->] | [_ ->]]; [left; reflexivity |].
      right. apply in_map_iff in Hin. destruct Hin as (task & Hi & Ht).
      exists task. subst m. auto.
  - split; [lia | split; [| left; reflexivity]].
    intros task Ht Hp.
    pose proof (minPositive_none _ E (interval task) (in_map interval _ _ Ht)).
    lia.
Qed.

Lemma sleepPeriod_bounds_witness :
  0 < sleepPeriod (backgroundTasks cfgAllEnabled) <= Minute /\
  sleepPeriod (backgroundTasks cfgAllEnabled) <= 10 * Second.
Proof.
  destruct (sleepPeriod_bounds (backgroundTasks cfgAllEnabled)) as (Hb & Hle & _).
  split; [exact Hb |].
  apply (Hle (mkTask "Crawl" FnDoCrawl (10 * Second) zeroTime)).
  - right; left; reflexivity.
  - reflexivity.
Defined.

Lemma filter_calls_app (f : call -> bool) (l1 l2 : list event) :
  filter f (calls (l1 ++ l2)) = filter f (calls l1) ++ filter f (calls l2).
Proof. unfold calls. rewrite map_app. apply filter_app. Qed.

Lemma runTasks_no_sleep (World : Type) (env : Env World) (tasks : list Task)
    (w : World) :
  filter isSleep (calls (trace (exec env (runTasks tasks) w))) = [].
Proof.
  apply Forall_filter_nil.
  assert (Hok : Forall (taskAllowed anyAnswer (fun c => isSleep c = false)) tasks).
  { apply Forall_forall. intros task _ _.
    split; [reflexivity | intros; reflexivity]. }
  pose proof (runTasks_always anyAnswer (fun c => isSleep c = false) eq_refl
                tasks Hok) as Hall.
  destruct (Always_exec anyAnswer _ _ env _ (fun _ _ => I) Hall w) as [Hcalls _].
  exact Hcalls.
Qed.

Lemma tickLoop_unfold (ticks : nat) (sleep : Duration) (tasks : list Task) :
  tickLoop (S ticks) sleep tasks =
  bindP (runTasks tasks) (fun tasks' =>
    bindP (perform (TimeSleep sleep)) (fun _ => tickLoop ticks sleep tasks')).
Proof. reflexivity. Qed.

Lemma runTasks_unfold (task : Task) (rest : list Task) :
  runTasks (task :: rest) =
  bindP (runTask task) (fun task' =>
    bindP (runTasks rest) (fun rest' => Ret (task' :: rest'))).
Proof. reflexivity. Qed.

Lemma taskStep_fn_count (task task' : Task) (tr : list event) :
  taskStep task tr task' -> (length (filter isFn (calls tr)) <= 1)%nat.
Proof.
  intros [start Hcond | start err now Hpos Hafter].
  - simpl. clear. lia.
  - destruct err; unfold failureLog, taskFailureLog; simpl; clear; lia.
Qed.

Lemma runTasks_fn_count (World : Type) (env : Env World) (tasks : list Task)
    (w : World) :
  (length (filter isFn (calls (trace (exec env (runTasks tasks) w))))
   <= length tasks)%nat.
Proof.
  revert w. induction tasks as [| task rest IH]; intros w.
  - simpl. lia.
  - rewrite runTasks_unfold, trace_bind, filter_calls_app, length_app.
    rewrite trace_bind, filter_calls_app, length_app.
    cbn [exec trace calls map filter length].
    pose proof (taskStep_fn_count _ _ _ (runTask_step World env task w)).
    specialize (IH (final (exec env (runTask task) w))).
    unfold calls in *. lia.
Qed.

Lemma runTasks_length (World : Type) (env : Env World) (tasks : list Task)
    (w : World) :
  length (result (exec env (runTasks tasks) w)) = length tasks.
Proof.
  symmetry. eapply Forall2_length. apply runTasks_advanced.
Qed.

(** X21: a tick calls at most one task function per entry of the task table,
    so [ticks] iterations of the loop call at most [ticks] times the number
    of tasks. *)
Theorem tickLoop_invocations_bounded (World : Type) (env : Env World)
    (ticks : nat) (sleep : Duration) (tasks : list Task) (w : World) :
  (length (filter isFn (calls (trace (exec env (runTasks tasks) w))))
   <= length tasks)%nat /\
  (length (filter isFn (calls (trace (exec env (tickLoop ticks sleep tasks) w))))
   <= ticks * length tasks)%nat.
Proof.
  split; [apply runTasks_fn_count |].
  revert tasks w. induction ticks as [| ticks IH]; intros tasks w.
  - simpl. lia.
  - rewrite tickLoop_unfold, trace_bind, filter_calls_app, length_app.
    rewrite trace_bind, filter_calls_app, length_app.
    cbn [exec trace calls map filter length perform fst snd isFn ev projT1 app].
    pose proof (runTasks_fn_count World env tasks w) as H1.
    match goal with
    | |- context [exec env (tickLoop ticks sleep ?ts) ?w'] =>
        pose proof (IH ts w') as H2
    end.
    rewrite runTasks_length in H2. unfold calls in *. lia.
Qed.

Lemma taskStep_now_count (task task' : Task) (tr : list event) :
  taskStep task tr task' -> (1 <= length (filter isNow (calls tr)))%nat.
Proof.
  intros [start Hcond | start err now Hpos Hafter]; simpl; clear; lia.
Qed.

Lemma runTasks_now_count (World : Type) (env : Env World) (tasks : list Task)
    (w : World) :
  (length tasks
   <= length (filter isNow (calls (trace (exec env (runTasks tasks) w)))))%nat.
Proof.
  revert w. induction tasks as [| task rest IH]; intros w.
  - simpl. lia.
  - rewrite runTasks_unfold, trace_bind, filter_calls_app, length_app.
    rewrite trace_bind, filter_calls_app, length_app.
    cbn [exec trace calls map filter length].
    pose proof (taskStep_now_count _ _ _ (runTask_step World env task w)).
    specialize (IH (final (exec env (runTask task) w))).
    unfold calls in *. lia.
Qed.

(** X20: whatever the tasks do and return, every iteration of the loop is a
    pass over the whole task table, in which the clock is read at least once
    per task and nothing sleeps, followed by one sleep of the tick period:
    the calls of a run of [ticks] iterations are [ticks] such passes, each
    with its sleep right after it, so the run sleeps exactly [ticks] times,
    always after a pass and never before the first one. *)
Theorem tickLoop_sleeps (World : Type) (env : Env World) (ticks : nat)
    (sleep : Duration) (tasks : list Task) (w : World) :
  (exists passes : list (list call),
     length passes = ticks /\
     calls (trace (exec env (tickLoop ticks sleep tasks) w)) =
       concat (map (fun pass => pass ++ [TimeSleep sleep]) passes) /\
     Forall (fun pass =>
               filter isSleep pass = [] /\
               (length tasks <= length (filter isNow pass))%nat) passes) /\
  filter isSleep (calls (trace (exec env (tickLoop ticks sleep tasks) w))) =
    repeat (TimeSleep sleep) ticks.
Proof.
  split.
  - revert tasks w. induction ticks as [| ticks IH]; intros tasks w.
    + exists []. split; [reflexivity | split; [reflexivity | constructor]].
    + rewrite tickLoop_unfold, trace_bind, trace_bind.
      match goal with
      | |- context [exec env (tickLoop ticks sleep ?ts) ?w'] =>
          destruct (IH ts w') as (passes & Hlen & Hcalls & Hpasses)
      end.
      exists (calls (trace (exec env (runTasks tasks) w)) :: passes).
      split; [simpl; rewrite Hlen; reflexivity | split].
      * unfold calls in *. rewrite !map_app.
        cbn [concat map]. rewrite <- app_assoc.
        apply (f_equal2 (@app call)); [reflexivity |].
        apply (f_equal2 (@app call)); [reflexivity | exact Hcalls].
      * constructor.
        -- split; [apply runTasks_no_sleep | apply runTasks_now_count].
        -- rewrite runTasks_length in Hpasses. exact Hpasses.
  - revert tasks w. induction ticks as [| ticks IH]; intros tasks w.
    + reflexivity.
    + rewrite tickLoop_unfold, trace_bind, filter_calls_app, runTasks_no_sleep.
      rewrite trace_bind, filter_calls_app. simpl. rewrite IH. reflexivity.
Qed.

(** X20 on a concrete run: two ticks with the crawl task enabled. *)
Example tickLoop_sleeps_run :
  calls (trace (exec (scripted idle) (runBackgroundTasks cfgDefaultMaxAge 2) 0%nat)) =
    concat (map (fun pass => pass ++ [TimeSleep (10 * Second)])
                [[TimeNow; TimeNow; Fn FnDoCrawl; TimeNow; TimeNow];
                 [TimeNow; TimeNow; TimeNow]]).
Proof. reflexivity. Qed.

(** X22: a task is not invoked while the clock has not passed its [next]:
    when the clock reads [next] itself or an earlier time, the step only
    reads the clock and leaves the task as it is, however large the
    interval. *)
Theorem runTask_not_before_next (World : Type) (env : Env World) (task : Task)
    (w w1 : World) (start : Time) :
  env TimeNow w = (start, w1) ->
  start <= next task ->
  exec env (runTask task) w = mkOutcome [ev TimeNow start] task w1.
Proof.
  intros Hnow Hle. unfold runTask. simpl. rewrite Hnow. simpl.
  unfold After. destruct (Z.ltb_spec (next task) start) as [Hlt | _]; [lia |].
  rewrite andb_false_r. reflexivity.
Qed.

Lemma runTask_not_before_next_witness :
  exec (scripted idle) (runTask (crawlTask 1000)) 0%nat =
    mkOutcome [ev TimeNow 1000] (crawlTask 1000) 1%nat.
Proof.
  apply (runTask_not_before_next nat (scripted idle) (crawlTask 1000)
           0%nat 1%nat 1000).
  - reflexivity.
  - vm_compute. discriminate.
Defined.

Lemma runTask_due_calls (World : Type) (env : Env World) (task : Task) (w : World) :
  next task < fst (env TimeNow w) ->
  filter isFn (calls (trace (exec env (runTask task) w))) =
    if 0 <? interval task then [Fn (fn task)] else [].
Proof.
  intros Hdue. unfold runTask. simpl.
  destruct (env TimeNow w) as [start w1]; simpl in *.
  unfold After. destruct (Z.ltb_spec (next task) start) as [_ | Hle]; [| lia].
  rewrite andb_true_r. destruct (0 <? interval task); [| reflexivity].
  simpl. destruct (env (Fn (fn task)) w1) as [[e |] w2]; reflexivity.
Qed.

(** X23: when the clock is past the [next] of every task, as on the first
    tick, one pass over the table calls the function of every enabled task
    exactly once, in table order, whatever the functions called earlier
    returned. *)
Theorem runTasks_all_due (World : Type) (env : Env World) (tasks : list Task)
    (w : World) :
  (forall (w' : World) (task : Task),
      In task tasks -> next task < fst (env TimeNow w')) ->
  filter isFn (calls (trace (exec env (runTasks tasks) w))) =
    map (fun task => Fn (fn task)) (filter (fun task => 0 <? interval task) tasks).
Proof.
  revert w. induction tasks as [| task rest IH]; intros w Hdue.
  - reflexivity.
  - rewrite runTasks_unfold, trace_bind, filter_calls_app.
    rewrite trace_bind, filter_calls_app.
    rewrite (runTask_due_calls World env task w (Hdue w task (or_introl eq_refl))).
    rewrite IH by (intros w' t Ht; apply Hdue; right; exact Ht).
    cbn [exec trace calls map filter]. rewrite app_nil_r.
    destruct (0 <? interval task); reflexivity.
Qed.

Lemma runTasks_all_due_witness :
  filter isFn
    (calls (trace (exec (scripted failingTaskAnswers)
                        (runTasks (backgroundTasks cfgAllEnabled)) 0%nat))) =
    [Fn FnReadGitHubUpdates; Fn FnDoCrawl; Fn FnCheckPackagesToSuppress].
Proof.
  apply (runTasks_all_due nat (scripted failingTaskAnswers)
           (backgroundTasks cfgAllEnabled) 0%nat).
  intros w' task [<- | [<- | [<- | []]]];
    change (0 < 1000 + Z.of_nat w'); lia.
Defined.

Lemma runTasks_disabled (World : Type) (env : Env World) (tasks : list Task)
    (w : World) :
  (forall task, In task tasks -> interval task <= 0) ->
  calls (trace (exec env (runTasks tasks) w)) = repeat TimeNow (length tasks) /\
  result (exec env (runTasks tasks) w) = tasks.
Proof.
  revert w. induction tasks as [| task rest IH]; intros w Hoff.
  - split; reflexivity.
  - assert (Hstep : exec env (runTask task) w =
                    mkOutcome [ev TimeNow (fst (env TimeNow w))] task
                              (snd (env TimeNow w))).
    { unfold runTask. simpl.
      destruct (Z.ltb_spec 0 (interval task)) as [Hpos | _]; [| reflexivity].
      specialize (Hoff task (or_introl eq_refl)). lia. }
    destruct (IH (snd (env TimeNow w))) as [IHc IHr];
      [intros t Ht; apply Hoff; right; exact Ht |].
    rewrite runTasks_unfold, exec_bind, Hstep. cbn [trace result final].
    rewrite exec_bind. cbn [trace result final exec]. unfold calls in *.
    rewrite app_nil_r, IHr. cbn [app map length repeat projT1 ev].
    rewrite IHc. split; reflexivity.
Qed.

Lemma tickLoop_disabled (World : Type) (env : Env World) (ticks : nat)
    (sleep : Duration) (tasks : list Task) (w : World) :
  (forall task, In task tasks -> interval task <= 0) ->
  calls (trace (exec env (tickLoop ticks sleep tasks) w)) =
    concat (repeat (repeat TimeNow (length tasks) ++ [TimeSleep sleep]) ticks) /\
  result (exec env (tickLoop ticks sleep tasks) w) = tasks.
Proof.
  intros Hoff. revert w. induction ticks as [| ticks IH]; intros w.
  - split; reflexivity.
  - destruct (runTasks_disabled World env tasks w Hoff) as [Hc Hr].
    rewrite tickLoop_unfold, exec_bind. cbn [trace result final].
    rewrite Hr, exec_bind. cbn [trace result final].
    match goal with
    | |- context [exec env (tickLoop ticks sleep tasks) ?w'] =>
        destruct (IH w') as [IHc IHr]
    end.
    split; [| exact IHr].
    unfold calls in *. rewrite !map_app.
    cbn [repeat concat]. rewrite <- app_assoc.
    apply (f_equal2 (@app call)); [exact Hc |].
    apply (f_equal2 (@app call)); [reflexivity | exact IHc].
Qed.

(** X24: when no task is enabled (every interval zero or negative),
    [runBackgroundTasks] only reads the clock, once per task and tick, and
    sleeps one minute per tick; the task table is never changed. *)
Theorem runBackgroundTasks_all_disabled (cfg : Config) (World : Type)
    (env : Env World) (ticks : nat) (w : World) :
  github_interval cfg <= 0 ->
  crawl_interval cfg <= 0 ->
  suppress_packages cfg <= 0 ->
  calls (trace (exec env (runBackgroundTasks cfg ticks) w)) =
    concat (repeat [TimeNow; TimeNow; TimeNow; TimeSleep Minute] ticks) /\
  result (exec env (runBackgroundTasks cfg ticks) w) = backgroundTasks cfg.
Proof.
  intros Hg Hc Hs.
  assert (Hoff : forall task, In task (backgroundTasks cfg) -> interval task <= 0).
  { intros task [<- | [<- | [<- | []]]]; assumption. }
  assert (Hsleep : sleepPeriod (backgroundTasks cfg) = Minute).
  { unfold sleepPeriod, backgroundTasks. simpl. unfold sleepStep. simpl.
    destruct (Z.ltb_spec 0 (github_interval cfg)); [lia |].
    destruct (Z.ltb_spec 0 (crawl_interval cfg)); [lia |].
    destruct (Z.ltb_spec 0 (suppress_packages cfg)); [lia |]. reflexivity. }
  unfold runBackgroundTasks. cbv zeta. rewrite Hsleep.
  exact (tickLoop_disabled World env ticks Minute (backgroundTasks cfg) w Hoff).
Qed.

Lemma runBackgroundTasks_all_disabled_witness :
  calls (trace (exec (scripted failingTaskAnswers)
                     (runBackgroundTasks cfgAllDisabled 2) 0%nat)) =
    [TimeNow; TimeNow; TimeNow; TimeSleep Minute;
     TimeNow; TimeNow; TimeNow; TimeSleep Minute] /\
  result (exec (scripted failingTaskAnswers)
               (runBackgroundTasks cfgAllDisabled 2) 0%nat)
    = backgroundTasks cfgAllDisabled.
Proof.
  apply (runBackgroundTasks_all_disabled cfgAllDisabled nat
           (scripted failingTaskAnswers) 2%nat 0%nat).
  - vm_compute. discriminate.
  - vm_compute. discriminate.
  - vm_compute. discriminate.
Defined.

(** ** The scheduler together with the task bodies *)

Lemma execDeep_result (cfg : Config) (World : Type) (env : Env World)
    {R : Type} (p : Prog R) (w : World) :
  result (execDeep cfg env p w) = result (exec (withTasks cfg env) p w) /\
  final (execDeep cfg env p w) = final (exec (withTasks cfg env) p w).
Proof.
  revert w. induction p as [r | c k IH]; intros w; simpl; [split; reflexivity |].
  apply IH.
Qed.

Lemma Always_execDeep (cfg : Config) (World : Type) (env : Env World)
    (P : call -> Prop) {R : Type} (Q : R -> Prop) (p : Prog R) :
  Always anyAnswer (deepAllowed cfg P) Q p ->
  forall w, Forall P (calls (trace (execDeep cfg env p w))).
Proof.
  intros Hp. induction Hp as [r Hr | c k [Hc Hbody] Hk IH]; intros w; simpl.
  - constructor.
  - constructor; [exact Hc |].
    unfold calls in *. rewrite map_app. apply Forall_app. split.
    + destruct c; simpl; try constructor.
      apply (Always_exec anyAnswer P _ env (taskBody cfg f) (fun _ _ => I) Hbody w).
    + apply IH. exact I.
Qed.

Lemma execDeep_tickLoop (cfg : Config) (P : call -> Prop) (tasks : list Task) :
  P TimeNow ->
  (forall d, P (TimeSleep d)) ->
  (forall format args, P (LogPrintf format args)) ->
  (forall task, In task tasks -> 0 < interval task ->
     P (Fn (fn task)) /\
     Always anyAnswer P (fun _ : option error => True) (taskBody cfg (fn task))) ->
  forall (World : Type) (env : Env World) (ticks : nat) (sleep : Duration)
         (w : World),
    Forall P (calls (trace (execDeep cfg env (tickLoop ticks sleep tasks) w))).
Proof.
  intros Hnow Hsleep Hlog Htasks World env ticks sleep w.
  assert (Hok : Forall (taskAllowed anyAnswer (deepAllowed cfg P)) tasks).
  { apply Forall_forall. intros task Hin Hpos.
    destruct (Htasks task Hin Hpos) as [Hfn Hbody].
    split; [split; assumption |]. intros e _. split; [apply Hlog | exact I]. }
  assert (Hnow' : deepAllowed cfg P TimeNow) by (split; [exact Hnow | exact I]).
  assert (Hsleep' : forall d, deepAllowed cfg P (TimeSleep d))
    by (intros d; split; [apply Hsleep | exact I]).
  exact (Always_execDeep cfg World env P _ _
           (tickLoop_always anyAnswer (deepAllowed cfg P) Hnow' Hsleep'
              ticks sleep tasks Hok) w).
Qed.

Lemma crawlCall_private (c : call) :
  crawlCall c = true -> feedOnly c = false /\ suppressOnly c = false.
Proof. destruct c; simpl; try discriminate; auto. Qed.

Lemma feedCall_private (c : call) :
  feedCall c = true -> crawlOnly c = false /\ suppressOnly c = false.
Proof. destruct c; simpl; try discriminate; auto. Qed.

Lemma suppressCall_private (c : call) :
  suppressCall c = true -> feedOnly c = false /\ crawlOnly c = false.
Proof. destruct c; simpl; try discriminate; auto. Qed.

(** X25: with the GitHub interval zero or negative, the whole scheduler,
    task bodies included, never calls [readGitHubUpdates], never polls the
    GitHub feed, never reads or writes the stored cursor and never bumps a
    crawl, however many ticks it runs and whatever the other tasks do. *)
Theorem disabled_feed_never_touched (cfg : Config) (World : Type)
    (env : Env World) (ticks : nat) (w : World) :
  github_interval cfg <= 0 ->
  Forall (fun c => feedOnly c = false)
         (calls (trace (execDeep cfg env (runBackgroundTasks cfg ticks) w))).
Proof.
  intros Hoff.
  apply (execDeep_tickLoop cfg (fun c => feedOnly c = false));
    try (intros; reflexivity).
  intros task [<- | [<- | [<- | []]]] Hpos; simpl in *.
  - lia.
  - split; [reflexivity |].
    eapply Always_calls_mono; [| apply doCrawl_footprint].
    intros c Hc. apply (crawlCall_private c Hc).
  - split; [reflexivity |].
    eapply Always_calls_mono; [| apply checkPackagesToSuppress_footprint].
    intros c Hc. apply (suppressCall_private c Hc).
Qed.

(** X26: with the crawl interval zero or negative, the whole scheduler never
    calls [doCrawl], never pops the queue of new packages, never crawls a
    document, and never marks a bad crawl or reschedules a package. *)
Theorem disabled_crawl_never_touched (cfg : Config) (World : Type)
    (env : Env World) (ticks : nat) (w : World) :
  crawl_interval cfg <= 0 ->
  Forall (fun c => crawlOnly c = false)
         (calls (trace (execDeep cfg env (runBackgroundTasks cfg ticks) w))).
Proof.
  intros Hoff.
  apply (execDeep_tickLoop cfg (fun c => crawlOnly c = false));
    try (intros; reflexivity).
  intros task [<- | [<- | [<- | []]]] Hpos; simpl in *.
  - split; [reflexivity |].
    eapply Always_calls_mono; [| apply readGitHubUpdates_footprint].
    intros c Hc. apply (feedCall_private c Hc).
  - lia.
  - split; [reflexivity |].
    eapply Always_calls_mono; [| apply checkPackagesToSuppress_footprint].
    intros c Hc. apply (suppressCall_private c Hc).
Qed.

(** X27: with the suppression interval zero or negative, the whole scheduler
    never calls [checkPackagesToSuppress], never opens a second database
    handle, never lists or scores the packages and never writes a package
    record. *)
Theorem disabled_suppress_never_touched (cfg : Config) (World : Type)
    (env : Env World) (ticks : nat) (w : World) :
  suppress_packages cfg <= 0 ->
  Forall (fun c => suppressOnly c = false)
         (calls (trace (execDeep cfg env (runBackgroundTasks cfg ticks) w))).
Proof.
  intros Hoff.
  apply (execDeep_tickLoop cfg (fun c => suppressOnly c = false));
    try (intros; reflexivity).
  intros task [<- | [<- | [<- | []]]] Hpos; simpl in *.
  - split; [reflexivity |].
    eapply Always_calls_mono; [| apply readGitHubUpdates_footprint].
    intros c Hc. apply (feedCall_private c Hc).
  - split; [reflexivity |].
    eapply Always_calls_mono; [| apply doCrawl_footprint].
    intros c Hc. apply (crawlCall_private c Hc).
  - lia.
Qed.

Lemma disabled_feed_never_touched_witness :
  Forall (fun c => feedOnly c = false)
         (calls (trace (execDeep cfgDefaultMaxAge (scripted failingRefreshAnswers)
                                 (runBackgroundTasks cfgDefaultMaxAge 2) 0%nat))).
Proof.
  apply (disabled_feed_never_touched cfgDefaultMaxAge nat
           (scripted failingRefreshAnswers) 2%nat 0%nat).
  vm_compute. discriminate.
Defined.

Lemma disabled_crawl_never_touched_witness :
  Forall (fun c => crawlOnly c = false)
         (calls (trace (execDeep cfgWithCredentials (scripted credentialsAnswers)
                                 (runBackgroundTasks cfgWithCredentials 2) 0%nat))).
Proof.
  apply (disabled_crawl_never_touched cfgWithCredentials nat
           (scripted credentialsAnswers) 2%nat 0%nat).
  vm_compute. discriminate.
Defined.

Lemma disabled_suppress_never_touched_witness :
  Forall (fun c => suppressOnly c = false)
         (calls (trace (execDeep cfgDefaultMaxAge (scripted failingRefreshAnswers)
                                 (runBackgroundTasks cfgDefaultMaxAge 2) 0%nat))).
Proof.
  apply (disabled_suppress_never_touched cfgDefaultMaxAge nat
           (scripted failingRefreshAnswers) 2%nat 0%nat).
  vm_compute. discriminate.
Defined.

(** A deep run: the crawl task is due on the first tick, its crawl fails and
    the package is rescheduled; on the second tick no task is due. *)
Example runBackgroundTasks_deep_run :
  calls (trace (execDeep cfgDefaultMaxAge (scripted failingRefreshAnswers)
                         (runBackgroundTasks cfgDefaultMaxAge 2) 0%nat)) =
    [TimeNow;
     TimeNow; Fn FnDoCrawl;
       DbPopNewCrawl PkgDb; DbGet PkgDb "-"; TimeNow;
       CrawlDoc "crawl" "example.com/bar" (Some examplePackage) false 500;
       TimeNow;
       DbSetNextCrawlEtag PkgDb "example.com" "etag-1" (1006 + 8 * Hour);
     TimeNow;
     TimeNow; TimeSleep (10 * Second);
     TimeNow; TimeNow; TimeNow; TimeSleep (10 * Second)].
Proof. reflexivity. Qed.
